(** * Waveplot, harmonic oscillator page: pages/core/vibrations.py

    A shallow embedding of the numerical core and of the four callbacks
    ([update_inputs], [calc_data], [update_plot], [download_data]) of
    [pages/core/vibrations.py], and the properties of it that the
    specification states.

    Numbers.  Python floats and numpy float64 values are embedded as the real
    numbers [R]: every arithmetic expression of the source is written out
    operator by operator, and is read in exact arithmetic.  Rounding error,
    overflow, NaN and the infinities are outside this embedding, and so are
    the exceptions of float arithmetic (ZeroDivisionError): the theorems
    that depend on the value of a quotient or of a square root assume the
    divisor non-zero and the argument non-negative.

    Exceptions.  A Python exception is a value [Py.Raise e] of the result
    type; dictionary look-ups, list indexing and [min]/[max] are the fallible
    operations of the module.  The recursion limit of the interpreter is not
    modelled.

    Dictionaries are [gmap string _] of stdpp. *)

From Stdlib Require Import Reals Lra Lia ZArith List.
From stdpp Require Import gmap strings list fin_maps.

#[local] Open Scope R_scope.

(** ** Python built-ins used by the module *)

Module Py.

Inductive exn : Type :=
| KeyError (key : string)
| IndexError
| ValueError
| TypeError.

Inductive result (A : Type) : Type :=
| Ok (a : A)
| Raise (e : exn).
#[global] Arguments Ok {A} a.
#[global] Arguments Raise {A} e.

(** Sequencing: the first exception raised ends the computation. *)
Definition bind' {A B : Type} (k : A -> result B) (r : result A) : result B :=
  match r with
  | Ok a => k a
  | Raise e => Raise e
  end.

(** [d[key]] on a dictionary. *)
Definition getitem {V : Type} (d : gmap string V) (key : string) : result V :=
  match d !! key with
  | Some v => Ok v
  | None => Raise (KeyError key)
  end.

(** [l[i]] on a list: a negative index counts from the end. *)
Definition index {A : Type} (l : list A) (i : Z) : result A :=
  let n := Z.of_nat (length l) in
  let j := (if i <? 0 then n + i else i)%Z in
  if (j <? 0)%Z then Raise IndexError
  else match l !! Z.to_nat j with
       | Some a => Ok a
       | None => Raise IndexError
       end.

(** [range(stop)]: the integers [0 .. stop-1], none when [stop <= 0]. *)
Definition range (stop : Z) : list nat := seq 0 (Z.to_nat stop).

(** [sum] of a list of booleans: [True] counts 1. *)
Definition sum (bs : list bool) : Z :=
  fold_right (fun (b : bool) acc => ((if b then 1 else 0) + acc)%Z) 0%Z bs.

(** [min(l)] and [max(l)]: [ValueError] on the empty list. *)
Definition min (l : list R) : result R :=
  match l with
  | [] => Raise ValueError
  | a :: t => Ok (fold_left Rmin t a)
  end.

Definition max (l : list R) : result R :=
  match l with
  | [] => Raise ValueError
  | a :: t => Ok (fold_left Rmax t a)
  end.

(** Nearest integer, ties to the even one. *)
Definition nearest_even (x : R) : Z :=
  let f := Int_part x in
  let d := x - IZR f in
  if Rlt_dec d (1 / 2) then f
  else if Rlt_dec (1 / 2) d then (f + 1)%Z
  else if Z.even f then f else (f + 1)%Z.

(** [round(x, ndigits)]. *)
Definition round (x : R) (ndigits : nat) : R :=
  IZR (nearest_even (x * 10 ^ ndigits)) / 10 ^ ndigits.

End Py.

#[global] Instance result_ret : MRet Py.result := @Py.Ok.
#[global] Instance result_bind : MBind Py.result := @Py.bind'.

(** ** numpy: one-dimensional float arrays, element by element *)

Module Np.

Abbreviation ndarray := (list R) (only parsing).

(** [c * x], [x * c] for a scalar [c]. *)
Definition scale (c : R) (x : ndarray) : ndarray := map (fun v => c * v) x.
(** [x / c] for a scalar [c]. *)
Definition div_scalar (x : ndarray) (c : R) : ndarray := map (fun v => v / c) x.
(** [x * y] and [x - y] for arrays of one shape. *)
Definition mul (x y : ndarray) : ndarray := zip_with Rmult x y.
Definition sub (x y : ndarray) : ndarray := zip_with Rminus x y.
(** [x ** 2]. *)
Definition square (x : ndarray) : ndarray := map (fun v => v ^ 2) x.
(** [np.exp(x)]. *)
Definition exp (x : ndarray) : ndarray := map Rtrigo_def.exp x.

(** [np.linspace(start, stop, num)] with the end point included: the
    samples are [start + i * step], the last one is set to [stop]. *)
Definition linspace (start stop : R) (num : nat) : ndarray :=
  let div := (num - 1)%nat in
  let delta := stop - start in
  let y :=
    match div with
    | O => map (fun i => INR i * delta + start) (seq 0 num)
    | S _ => map (fun i => INR i * (delta / INR div) + start) (seq 0 num)
    end in
  match div with
  | O => y
  | S _ => <[div := stop]> y
  end.

End Np.

(** ** Dash: a callback either returns a value or [no_update] *)

Module Dash.

Inductive output (A : Type) : Type :=
| no_update
| value (a : A).
#[global] Arguments no_update {A}.
#[global] Arguments value {A} a.

End Dash.

(** ** pages/core/vibrations.py *)

Module Vibrations.

Import Np.

(** [scipy.constants.speed_of_light] (m/s), [scipy.constants.Planck]
    (J s) and [scipy.constants.hbar], as scipy defines them. *)
Definition speed_of_light : R := 299792458.
Definition Planck : R := 6.62607015e-34.
Definition hbar : R := Planck / (2 * PI).

(** c in cm/s *)
Definition LIGHT : R := speed_of_light * 100.
Definition HBAR : R := Planck.

(** nth Hermite polynomial at each point of [x].  The order [n] is a
    natural number: the callers pass the values of [range(max_n + 1)]. *)
Fixpoint hermite (n : nat) (x : ndarray) : ndarray :=
  match n with
  | O => map (fun v => v * 0 + 1) x
  | S n1 =>
      match n1 with
      | O => map (fun v => 2 * v) x
      | S n2 =>
          sub (mul (map (fun v => 2 * v) x) (hermite n1 x))
              (scale (2 * (INR n - 1)) (hermite n2 x))
      end
  end.

(** Returns [(state_E, harmonic_E, displacement, zpd)]. *)
Definition calc_harmonic_energies (k m : R) (max_n : Z)
  : ndarray * ndarray * ndarray * R :=
  (* Angular frequency *)
  let omega := sqrt (k / m) / (2 * PI) in
  (* Harmonic state energies *)
  let state_E :=
    map (fun n : nat => HBAR * omega * (INR n + 0.5)) (Py.range (max_n + 1)) in
  (* Harmonic potential, E = 1/2 kx^2 *)
  let max_x := sqrt ((IZR max_n + 0.5) * 2 * HBAR * omega / k) in
  let displacement := linspace (- max_x * 1.2) (max_x * 1.2) 100 in
  let harmonic_E := scale (0.5 * k) (square displacement) in
  (* Zero point displacement *)
  let zpd := sqrt (HBAR * omega / k) in
  (state_E, harmonic_E, displacement, zpd).

(** Reduced mass (g/mol) from angular frequency and force constant. *)
Definition calculate_mu (w k : R) : R :=
  let mu := k / w ^ 2 in
  let mu := mu / 1.6605E-27 in
  mu.

(** Force constant from angular frequency and reduced mass (g/mol). *)
Definition calculate_k (w mu : R) : R :=
  let mu := mu * 1.6605E-27 in
  let k := mu * w ^ 2 in
  k.

(** Normalised harmonic wavefunction of the [n]th state over [x].  (The
    source also prints [n] and [h]; standard output is not modelled.) *)
Definition harmonic_wf (n : nat) (x : ndarray) (m omega : R) : ndarray :=
  let beta := sqrt (m * omega / HBAR) in
  let h := hermite n (scale beta x) in
  let N := 1 / sqrt (2 ^ n * INR (fact n))
           * Rpower ((m * omega) / (PI * HBAR)) 0.25 in
  mul (scale N h) (exp (map (fun v => - beta ^ 2 * v ^ 2 * 0.5) x)).

(** [OptionsDiv.var_store]: a [dcc.Store] created with [data={}]. *)
Definition var_store_data : gmap string (option R) := ∅.

(** *** update_inputs *)

(** The returned tuple: the dictionary for [var_store], then the four
    rounded values and the four [disabled] flags, in the order
    lin_wn, ang_wn, fc, mu. *)
Record inputs_update : Type := {
  store : gmap string (option R);
  rounded : list R;
  on_off : list bool
}.

Definition update_inputs (lin_wn ang_wn fc mu : R)
    (lin_wn_fix ang_wn_fix fc_fix mu_fix : bool) : inputs_update :=
  (* Set all text entries as uneditable, make 'fixed' values editable *)
  let lin_wn_disable := if lin_wn_fix then false else true in
  let ang_wn_disable := if ang_wn_fix then false else true in
  let fc_disable := if fc_fix then false else true in
  let mu_disable := if mu_fix then false else true in
  if negb (Py.sum [ang_wn_fix; lin_wn_fix; fc_fix; mu_fix] =? 2)%Z
     || (ang_wn_fix && lin_wn_fix)
  then
    {| store := <["fc" := None]> (<["mu" := None]> ∅);
       rounded := [Py.round lin_wn 2; Py.round ang_wn 2;
                   Py.round fc 2; Py.round mu 4];
       on_off := [lin_wn_disable; ang_wn_disable; fc_disable; mu_disable] |}
  else
    (* Calculate missing parameters *)
    let '(lin_wn, ang_wn, fc, mu) :=
      if ang_wn_fix && negb lin_wn_fix then
        let omega := ang_wn * LIGHT in
        let lin_wn := ang_wn / (2 * PI) in
        if fc_fix && negb mu_fix then
          (lin_wn, ang_wn, fc, calculate_mu omega fc)
        else if negb fc_fix && mu_fix then
          (lin_wn, ang_wn, calculate_k omega mu, mu)
        else (lin_wn, ang_wn, fc, mu)
      else if lin_wn_fix && negb ang_wn_fix then
        let omega := lin_wn * 2 * PI * LIGHT in
        let ang_wn := lin_wn * 2 * PI in
        if fc_fix && negb mu_fix then
          (lin_wn, ang_wn, fc, calculate_mu omega fc)
        else if negb fc_fix && mu_fix then
          (lin_wn, ang_wn, calculate_k omega mu, mu)
        else (lin_wn, ang_wn, fc, mu)
      else if negb ang_wn_fix && negb lin_wn_fix then
        let ang_wn := sqrt (fc / (mu * 1.6605E-27)) / LIGHT in
        let lin_wn := ang_wn / (2 * PI) in
        (lin_wn, ang_wn, fc, mu)
      else (lin_wn, ang_wn, fc, mu) in
    {| store := <["fc" := Some fc]> (<["mu" := Some (mu * 1.6605E-27)]>
               (<["ang_wn" := Some ang_wn]> (<["lin_wn" := Some lin_wn]> ∅)));
       rounded := [Py.round lin_wn 2; Py.round ang_wn 2;
                   Py.round fc 2; Py.round mu 4];
       on_off := [lin_wn_disable; ang_wn_disable; fc_disable; mu_disable] |}.

(** *** calc_data *)

(** A value of the plot store's dictionary: a list of floats
    (['x'], ['states'], ['potential']) or a list of such lists (['wf']). *)
Inductive value : Type :=
| floats (l : list R)
| rows (l : list (list R)).

Definition get_floats (data : gmap string value) (key : string)
  : Py.result (list R) :=
  v ← Py.getitem data key;
  match v with
  | floats l => Py.Ok l
  | rows _ => Py.Raise Py.TypeError
  end.

Definition get_rows (data : gmap string value) (key : string)
  : Py.result (list (list R)) :=
  v ← Py.getitem data key;
  match v with
  | rows l => Py.Ok l
  | floats _ => Py.Raise Py.TypeError
  end.

(** [None in vars.values()] *)
Definition None_in_values (vars : gmap string (option R)) : bool :=
  existsb (fun kv : string * option R =>
             match kv.2 with None => true | Some _ => false end)
          (map_to_list vars).

(** [vars[key]] used as a number: arithmetic on [None] is a [TypeError]. *)
Definition get_float (vars : gmap string (option R)) (key : string)
  : Py.result R :=
  v ← Py.getitem vars key;
  match v with
  | Some r => Py.Ok r
  | None => Py.Raise Py.TypeError
  end.

Definition calc_data (vars : gmap string (option R)) (max_n : option Z)
  : Py.result (Dash.output (gmap string value)) :=
  if None_in_values vars then Py.Ok Dash.no_update
  else
    let max_n := match max_n with None => 5%Z | Some n => n end in
    fc ← get_float vars "fc";
    m ← get_float vars "mu";
    let '(state_e, harmonic_e, displacement, _) :=
      calc_harmonic_energies fc m max_n in
    (* Convert to cm-1: 1 cm-1 = 1.986 30 x 10-23 J *)
    let state_e := div_scalar state_e 1.98630E-23 in
    let harmonic_e := div_scalar harmonic_e 1.98630E-23 in
    wf ← mapM (fun n : nat =>
                 mu ← get_float vars "mu";
                 ang_wn ← get_float vars "ang_wn";
                 Py.Ok (harmonic_wf n displacement mu (ang_wn * LIGHT)))
              (Py.range (max_n + 1));
    let final : gmap string value :=
      <["x" := floats (scale 10E10 displacement)]>
      (<["wf" := rows wf]>
      (<["states" := floats state_e]>
      (<["potential" := floats harmonic_e]> ∅))) in
    Py.Ok (Dash.value final).

(** *** update_plot *)

(** [go.Scatter(x=..., y=..., line={'color': ...}, mode=...)] *)
Record Scatter : Type := {
  sc_x : list R;
  sc_y : list R;
  sc_line_color : option string;
  sc_mode : option string
}.

(** The [Patch]: [fig['layout']['yaxis']['range']] and [fig['data']]. *)
Record Patch : Type := {
  yaxis_range : list R;
  traces : list Scatter
}.

Definition update_plot (data : gmap string value) : Py.result Patch :=
  (* Harmonic potential *)
  x ← get_floats data "x";
  potential ← get_floats data "potential";
  let traces_pe :=
    [ {| sc_x := x; sc_y := potential;
         sc_line_color := None; sc_mode := None |} ] in
  states ← get_floats data "states";
  let _states := map (fun da => [da; da]) states in
  (* States *)
  x_min ← Py.min x;
  x_max ← Py.max x;
  let _x := [x_min; x_max] in
  let traces_states :=
    map (fun state => {| sc_x := _x; sc_y := state;
                         sc_line_color := Some "black";
                         sc_mode := Some "lines" |}) _states in
  (* WF *)
  wfs ← get_rows data "wf";
  traces_wf ← mapM (fun '(wf, state) =>
                      s0 ← Py.index state 0;
                      Py.Ok {| sc_x := x;
                               sc_y := map (fun val => val * 0.01 + s0) wf;
                               sc_line_color := None; sc_mode := None |})
                   (zip wfs _states);
  (* Find nmax + 1 th state and use this energy as y limit *)
  s_last ← Py.index states (-1);
  s_prev ← Py.index states (-2);
  let upen := 2 * s_last - s_prev in
  s_first ← Py.index states 0;
  let lowen := s_first - (s_last - s_prev) / 2 in
  Py.Ok {| yaxis_range := [lowen; upen];
           traces := traces_pe ++ traces_states ++ traces_wf |}.

(** *** download_data *)

(** What is written to the file: literal text, or a number formatted
    with ['{:.<digits>f}']. *)
Inductive chunk : Type :=
| text (s : string)
| fixed (digits : nat) (v : R).

Definition nl : string := String (Ascii.ascii_of_nat 10) EmptyString.

(** The dictionary handed to [dcc.Download]. *)
Record download : Type := {
  content : list chunk;
  filename : string
}.

Definition download_data (_nc : Z) (data : gmap string value)
  : Py.result (Dash.output download) :=
  if (size data =? 0)%nat then Py.Ok Dash.no_update
  else
    let header :=
      [ text "Vibrational wavefunction data calculated using waveplot.com";
        text nl; text "A tool by Jon Kragskow"; text nl ] in
    let oc := header ++ [text nl; text "State energies (cm-1)"; text nl] in
    states ← get_floats data "states";
    let oc := oc ++ concat (map (fun se => [fixed 6 se; text nl]) states) in
    let oc := oc ++ [text nl;
                     text "Displacement (A), Harmonic potential (cm-1)";
                     text nl] in
    x ← get_floats data "x";
    potential ← get_floats data "potential";
    let oc := oc ++ concat (map (fun '(di, se) =>
                                   [fixed 6 (di * 10E10); text ", ";
                                    fixed 6 se; text nl])
                                (zip x potential)) in
    let oc := oc ++ [text nl;
                     text "Displacement (A), Harmonic Wavefunction for n=0, n=1, ...";
                     text nl] in
    wf ← get_rows data "wf";
    let oc := oc ++ concat (map (fun '(di, row) =>
                                   [fixed 8 (di * 10E10); text ", "]
                                   ++ concat (map (fun state_wf =>
                                                     [fixed 8 state_wf; text ", "])
                                                  row)
                                   ++ [text nl])
                                (zip x wf)) in
    Py.Ok (Dash.value {| content := oc;
                         filename := "waveplot_harmonic_data.dat" |}).

End Vibrations.

Import Vibrations.

(** ** Definitions used to state the properties *)

(** The dictionary that update_inputs stores for the page's initial inputs:
    2888, 18145.84, 480 and 0.9768, with the force constant and the reduced
    mass fixed. *)
Definition initial_vars : gmap string (option R) :=
  store (update_inputs 2888 18145.84 480 0.9768 false false true true).

(** The layout of the exported file, for given values of its two
    displacement columns: the header, the state energies, the table of
    displacement and potential, and the table of displacement and
    wavefunction rows. *)
Definition file_layout (shown : list R) (states potential : list R)
    (wf : list (list R)) : list chunk :=
  [ text "Vibrational wavefunction data calculated using waveplot.com";
    text nl; text "A tool by Jon Kragskow"; text nl ]
  ++ [text nl; text "State energies (cm-1)"; text nl]
  ++ concat (map (fun se => [fixed 6 se; text nl]) states)
  ++ [text nl; text "Displacement (A), Harmonic potential (cm-1)"; text nl]
  ++ concat (map (fun '(di, se) =>
                    [fixed 6 di; text ", "; fixed 6 se; text nl])
                 (zip shown potential))
  ++ [text nl;
      text "Displacement (A), Harmonic Wavefunction for n=0, n=1, ...";
      text nl]
  ++ concat (map (fun '(di, row) =>
                    [fixed 8 di; text ", "]
                    ++ concat (map (fun state_wf =>
                                      [fixed 8 state_wf; text ", "]) row)
                    ++ [text nl])
                 (zip shown wf)).

(** The physicists' Hermite polynomial of order [n] at one point, by its
    three-term recurrence H_0 = 1, H_1 = 2v,
    H_(p+1) = 2v H_p - 2p H_(p-1). *)
Fixpoint hermite_poly (n : nat) (v : R) : R :=
  match n with
  | O => 1
  | S p =>
      match p with
      | O => 2 * v
      | S q => 2 * v * hermite_poly p v - 2 * INR p * hermite_poly q v
      end
  end.

(** The number of line ends written to the file. *)
Definition lines_written (c : list chunk) : nat :=
  length (List.filter (fun ch => match ch with
                                 | text s => String.eqb s nl
                                 | fixed _ _ => false
                                 end) c).

(** * Properties *)

(** ** The Python built-ins *)

Section PyFacts.

Context {A : Type}.
Implicit Types (l : list A) (a : A).

Lemma index_first a l : Py.index (a :: l) 0 = Py.Ok a.
Proof. reflexivity. Qed.

(** [l[-1]] is the last element. *)
Lemma index_last l a : Py.index (l ++ [a]) (-1) = Py.Ok a.
Proof.
  unfold Py.index. rewrite length_app, Nat.add_1_r. cbn [Z.ltb Z.compare].
  replace (Z.of_nat (S (length l)) + -1)%Z with (Z.of_nat (length l)) by lia.
  destruct (Z.ltb_spec (Z.of_nat (length l)) 0) as [H|_]; [lia|].
  rewrite Nat2Z.id, lookup_app_r, Nat.sub_diag by lia. reflexivity.
Qed.

(** [l[-2]] is the element before the last. *)
Lemma index_before_last l a b : Py.index (l ++ [a; b]) (-2) = Py.Ok a.
Proof.
  unfold Py.index. rewrite length_app. cbn [length Z.ltb Z.compare].
  replace (Z.of_nat (length l + 2) + -2)%Z with (Z.of_nat (length l)) by lia.
  destruct (Z.ltb_spec (Z.of_nat (length l)) 0) as [H|_]; [lia|].
  rewrite Nat2Z.id, lookup_app_r, Nat.sub_diag by lia. reflexivity.
Qed.

Lemma index_last_of_two l a b : Py.index (l ++ [a; b]) (-1) = Py.Ok b.
Proof.
  replace (l ++ [a; b]) with ((l ++ [a]) ++ [b])
    by (rewrite <- app_assoc; reflexivity).
  apply index_last.
Qed.

(** On a one-element list, [l[-2]] is out of range. *)
Lemma index_singleton_oob a : Py.index [a] (-2) = Py.Raise Py.IndexError.
Proof. reflexivity. Qed.

(** A list with two entries or more ends in two entries. *)
Lemma two_last l :
  (2 <= length l)%nat -> exists l0 a b, l = l0 ++ [a; b].
Proof.
  intros Hlen.
  destruct (rev l) as [|b [|a r]] eqn:Hrev.
  - apply (f_equal (@length A)) in Hrev. rewrite length_rev in Hrev.
    simpl in Hrev. lia.
  - apply (f_equal (@length A)) in Hrev. rewrite length_rev in Hrev.
    simpl in Hrev. lia.
  - exists (rev r), a, b.
    rewrite <- (rev_involutive l), Hrev. simpl.
    rewrite <- app_assoc. reflexivity.
Qed.

End PyFacts.

Lemma range_length (stop : Z) : length (Py.range stop) = Z.to_nat stop.
Proof. apply length_seq. Qed.

Lemma range_lookup (stop : Z) (n : nat) :
  (Z.of_nat n < stop)%Z -> Py.range stop !! n = Some n.
Proof.
  intros H. unfold Py.range. rewrite lookup_seq. split; [reflexivity | lia].
Qed.

(** A comprehension whose body raises nothing is a [map]. *)
Lemma mapM_Ok {A B : Type} (f : A -> Py.result B) (g : A -> B) (l : list A) :
  (forall a, f a = Py.Ok (g a)) -> mapM f l = Py.Ok (map g l).
Proof.
  intros Hf. induction l as [|a l IH]; [reflexivity|].
  cbn [mapM]. rewrite Hf. cbn. rewrite IH. reflexivity.
Qed.

(** ** Dictionaries *)

Lemma None_in_values_false (vars : gmap string (option R)) :
  None_in_values vars = false <-> forall key, vars !! key <> Some None.
Proof.
  unfold None_in_values. split.
  - intros Hex key Hkey.
    assert (Hin : In (key, @None R) (map_to_list vars))
      by (apply list_elem_of_In, elem_of_map_to_list, Hkey).
    assert (Ht : existsb (fun kv : string * option R =>
                            match kv.2 with None => true | Some _ => false end)
                         (map_to_list vars) = true)
      by (apply existsb_exists; exists (key, None); split; [exact Hin | reflexivity]).
    congruence.
  - intros Hno. apply not_true_is_false. intros Ht.
    apply existsb_exists in Ht as [[key [r|]] [Hin Hv]]; [discriminate|].
    apply list_elem_of_In, elem_of_map_to_list in Hin. exact (Hno key Hin).
Qed.

Lemma get_float_Some (vars : gmap string (option R)) key r :
  vars !! key = Some (Some r) -> get_float vars key = Py.Ok r.
Proof. intros H. unfold get_float, Py.getitem. rewrite H. reflexivity. Qed.

Lemma get_floats_Some (data : gmap string value) key l :
  data !! key = Some (floats l) -> get_floats data key = Py.Ok l.
Proof. intros H. unfold get_floats, Py.getitem. rewrite H. reflexivity. Qed.

Lemma get_rows_Some (data : gmap string value) key l :
  data !! key = Some (rows l) -> get_rows data key = Py.Ok l.
Proof. intros H. unfold get_rows, Py.getitem. rewrite H. reflexivity. Qed.

(** ** hermite *)

Lemma hermite_step (n : nat) (x : Np.ndarray) :
  hermite (S (S n)) x =
  Np.sub (Np.mul (map (fun v => 2 * v) x) (hermite (S n) x))
         (Np.scale (2 * (INR (S (S n)) - 1)) (hermite n x)).
Proof. reflexivity. Qed.

(** The result has the shape of [x]. *)
Lemma hermite_length (n : nat) (x : Np.ndarray) :
  length (hermite n x) = length x.
Proof.
  enough (H : length (hermite n x) = length x
              /\ length (hermite (S n) x) = length x) by apply H.
  induction n as [|n [IH0 IH1]].
  - split; apply length_map.
  - split; [exact IH1|].
    rewrite hermite_step. unfold Np.sub, Np.mul, Np.scale.
    rewrite !length_zip_with, !length_map, IH0, IH1. lia.
Qed.

Lemma hermite_lookup (n : nat) (x : Np.ndarray) (i : nat) (v : R) :
  x !! i = Some v -> exists h, hermite n x !! i = Some h.
Proof.
  intros Hx. apply lookup_lt_is_Some. rewrite hermite_length.
  apply lookup_lt_is_Some. eauto.
Qed.

(** C5. For every array [x]: hermite(0, x) is 1 at every point,
    hermite(1, x) is 2x, hermite(2, x) is 4x^2 - 2, and for every n >= 2,
    at every point of [x],
    hermite(n, x) = 2x hermite(n-1, x) - 2(n-1) hermite(n-2, x). *)
Theorem hermite_recursion (x : Np.ndarray) :
  hermite 0 x = map (fun _ => 1) x
  /\ hermite 1 x = map (fun v => 2 * v) x
  /\ hermite 2 x = map (fun v => 4 * v ^ 2 - 2) x
  /\ forall (n i : nat) (v : R),
       (2 <= n)%nat -> x !! i = Some v ->
       exists a b,
         hermite (n - 1) x !! i = Some a
         /\ hermite (n - 2) x !! i = Some b
         /\ hermite n x !! i = Some (2 * v * a - 2 * (INR n - 1) * b).
Proof.
  split; [|split; [|split]].
  - apply map_ext. intros v. ring.
  - reflexivity.
  - rewrite hermite_step. unfold Np.sub, Np.mul, Np.scale. cbn [hermite].
    induction x as [|v x IH]; [reflexivity|].
    cbn [map zip_with]. rewrite IH. f_equal. simpl INR. ring.
  - intros n i v Hn Hx.
    destruct n as [|[|n]]; [lia | lia |].
    destruct (hermite_lookup (S n) x i v Hx) as [a Ha].
    destruct (hermite_lookup n x i v Hx) as [b Hb].
    exists a, b.
    replace (S (S n) - 1)%nat with (S n) by lia.
    replace (S (S n) - 2)%nat with n by lia.
    repeat split; [exact Ha | exact Hb |].
    rewrite hermite_step. unfold Np.sub, Np.mul, Np.scale.
    rewrite !lookup_zip_with, !list_lookup_fmap, Hx, Ha, Hb.
    reflexivity.
Qed.

Lemma hermite_recursion_witness :
  exists a b,
    hermite (3 - 1) [1] !! 0%nat = Some a
    /\ hermite (3 - 2) [1] !! 0%nat = Some b
    /\ hermite 3 [1] !! 0%nat = Some (2 * 1 * a - 2 * (INR 3 - 1) * b).
Proof.
  apply (proj2 (proj2 (proj2 (hermite_recursion [1]))) 3%nat 0%nat 1);
    [lia | reflexivity].
Defined.

(** ** update_inputs *)

(** The dictionary returned on the not-ready path holds [None] only. *)
Lemma not_ready_store (key : string) (v : option R) :
  (<["fc" := None]> (<["mu" := None]> ∅) : gmap string (option R)) !! key
    = Some v ->
  v = None.
Proof.
  intros Hk.
  apply lookup_insert_Some in Hk as [[_ Hv]|[_ Hk]]; [congruence|].
  apply lookup_insert_Some in Hk as [[_ Hv]|[_ Hk]]; [congruence|].
  rewrite lookup_empty in Hk. discriminate.
Qed.

(** C1. Whatever the four values are, when the number of fixed flags that
    are true is not 2, or the linear and the angular wavenumber are both
    fixed, update_inputs returns a dictionary in which 'fc' and 'mu' are
    None (and nothing else is defined), and returns the four values it was
    given, rounded to 2, 2, 2 and 4 decimal places. *)
Theorem update_inputs_not_ready
    (lin_wn ang_wn fc mu : R) (lin_wn_fix ang_wn_fix fc_fix mu_fix : bool) :
  count_occ bool_dec [lin_wn_fix; ang_wn_fix; fc_fix; mu_fix] true <> 2%nat
  \/ (lin_wn_fix = true /\ ang_wn_fix = true) ->
  let r := update_inputs lin_wn ang_wn fc mu
                         lin_wn_fix ang_wn_fix fc_fix mu_fix in
  store r !! "fc" = Some None
  /\ store r !! "mu" = Some None
  /\ (forall key v, store r !! key = Some v -> v = None)
  /\ rounded r = [Py.round lin_wn 2; Py.round ang_wn 2;
                  Py.round fc 2; Py.round mu 4].
Proof.
  intros Hbad.
  assert (Hguard :
    negb (Py.sum [ang_wn_fix; lin_wn_fix; fc_fix; mu_fix] =? 2)%Z
    || (ang_wn_fix && lin_wn_fix) = true).
  { destruct lin_wn_fix, ang_wn_fix, fc_fix, mu_fix; try reflexivity;
      destruct Hbad as [Hn|[Hl Ha]];
      solve [ exfalso; apply Hn; reflexivity | discriminate ]. }
  unfold update_inputs. rewrite Hguard. cbn [store rounded].
  split; [reflexivity|]. split; [reflexivity|].
  split; [apply not_ready_store | reflexivity].
Qed.

Lemma update_inputs_not_ready_witness :
  let r := update_inputs 2888 18145.84 480 0.9768 true false true true in
  store r !! "fc" = Some None
  /\ store r !! "mu" = Some None
  /\ (forall key v, store r !! key = Some v -> v = None)
  /\ rounded r = [Py.round 2888 2; Py.round 18145.84 2;
                  Py.round 480 2; Py.round 0.9768 4].
Proof.
  apply (update_inputs_not_ready 2888 18145.84 480 0.9768
                                 true false true true).
  left. simpl. lia.
Defined.

(** ** calc_harmonic_energies *)

Lemma two_PI_gt_4 : 4 < 2 * PI.
Proof. pose proof PI2_1. lra. Qed.

Lemma Planck_pos : 0 < Planck.
Proof. unfold Planck. lra. Qed.

(** The quantity the source calls omega. *)
Lemma omega_pos (k m : R) : 0 < k -> 0 < m -> 0 < sqrt (k / m) / (2 * PI).
Proof.
  intros Hk Hm. pose proof two_PI_gt_4.
  apply Rdiv_lt_0_compat; [|lra].
  apply sqrt_lt_R0, Rdiv_lt_0_compat; assumption.
Qed.

Lemma state_E_length (k m : R) (max_n : Z) :
  length (calc_harmonic_energies k m max_n).1.1.1 = Z.to_nat (max_n + 1).
Proof. cbn. rewrite length_map. apply range_length. Qed.

Lemma state_E_lookup (k m : R) (max_n : Z) (n : nat) :
  (Z.of_nat n <= max_n)%Z ->
  (calc_harmonic_energies k m max_n).1.1.1 !! n
  = Some (HBAR * (sqrt (k / m) / (2 * PI)) * (INR n + 0.5)).
Proof.
  intros Hn. cbn. rewrite list_lookup_fmap, range_lookup by lia. reflexivity.
Qed.

(** ** calc_data *)

(** With 'fc', 'mu' and 'ang_wn' defined and no [None] among the values,
    calc_data returns the dictionary it builds. *)
Lemma calc_data_value (vars : gmap string (option R)) (max_n : option Z)
    (k m ang_wn : R) :
  vars !! "fc" = Some (Some k) ->
  vars !! "mu" = Some (Some m) ->
  vars !! "ang_wn" = Some (Some ang_wn) ->
  (forall key, vars !! key <> Some None) ->
  let N := match max_n with None => 5%Z | Some n => n end in
  let r := calc_harmonic_energies k m N in
  calc_data vars max_n =
  Py.Ok (Dash.value
    (<["x" := floats (Np.scale 10E10 r.1.2)]>
    (<["wf" := rows (map (fun n : nat =>
                            harmonic_wf n r.1.2 m (ang_wn * LIGHT))
                         (Py.range (N + 1)))]>
    (<["states" := floats (Np.div_scalar r.1.1.1 1.98630E-23)]>
    (<["potential" := floats (Np.div_scalar r.1.1.2 1.98630E-23)]> ∅))))).
Proof.
  intros Hfc Hmu Hang Hnone N r.
  apply None_in_values_false in Hnone.
  unfold calc_data. rewrite Hnone.
  rewrite (get_float_Some _ _ _ Hfc), (get_float_Some _ _ _ Hmu).
  cbn [mbind result_bind Py.bind'].
  fold N. fold r. destruct r as [[[state_e harmonic_e] displacement] zpd].
  rewrite (mapM_Ok _ (fun n : nat =>
                        harmonic_wf n displacement m (ang_wn * LIGHT))).
  - reflexivity.
  - intros n. rewrite ?(get_float_Some _ _ _ Hmu), (get_float_Some _ _ _ Hang).
    reflexivity.
Qed.

(** The module's HBAR is scipy's [Planck], which is 2 pi times [hbar]. *)
Lemma HBAR_is_Planck : HBAR = 2 * PI * hbar.
Proof. pose proof two_PI_gt_4. unfold HBAR, hbar. field. lra. Qed.

(** C3, as stated, fails: with k = m = 1 the ground-state energy returned is
    not hbar omega / 2 for the reduced Planck constant [hbar]. *)
Lemma calc_harmonic_energies_reduced_counterexample :
  (calc_harmonic_energies 1 1 0).1.1.1 !! 0%nat
  <> Some (hbar * (sqrt (1 / 1) / (2 * PI)) * (INR 0 + 1 / 2)).
Proof.
  rewrite state_E_lookup by reflexivity.
  intros Heq. injection Heq as Heq.
  pose proof (omega_pos 1 1 Rlt_0_1 Rlt_0_1) as Hw.
  pose proof Planck_pos as Hp. pose proof two_PI_gt_4 as Hpi.
  rewrite HBAR_is_Planck in Heq. fold hbar in Heq.
  assert (Hh : 0 < hbar)
    by (unfold hbar; apply Rdiv_lt_0_compat; lra).
  set (w := sqrt (1 / 1) / (2 * PI)) in *. simpl INR in Heq.
  assert (Hq : 0 < hbar * w) by (apply Rmult_lt_0_compat; assumption).
  nra.
Qed.

(** C3, amended. For k > 0, m > 0 and 0 <= N <= 25, calc_harmonic_energies
    returns N + 1 state energies, the nth being h omega (n + 1/2) with
    omega = sqrt(k/m) / (2 pi) and h the Planck constant (the module's HBAR,
    2 pi times the reduced constant); calc_data stores each of them divided
    by 1.98630e-23. *)
Theorem calc_harmonic_energies_states
    (k m : R) (N : Z) (n : nat) (vars : gmap string (option R)) (ang_wn : R) :
  0 < k -> 0 < m -> (0 <= N <= 25)%Z -> (Z.of_nat n <= N)%Z ->
  vars !! "fc" = Some (Some k) ->
  vars !! "mu" = Some (Some m) ->
  vars !! "ang_wn" = Some (Some ang_wn) ->
  (forall key, vars !! key <> Some None) ->
  let omega := sqrt (k / m) / (2 * PI) in
  let state_E := (calc_harmonic_energies k m N).1.1.1 in
  length state_E = Z.to_nat (N + 1)
  /\ state_E !! n = Some (Planck * omega * (INR n + 1 / 2))
  /\ Planck = 2 * PI * hbar
  /\ exists data states,
       calc_data vars (Some N) = Py.Ok (Dash.value data)
       /\ data !! "states" = Some (floats states)
       /\ length states = Z.to_nat (N + 1)
       /\ states !! n = Some (Planck * omega * (INR n + 1 / 2) / 1.98630E-23).
Proof.
  intros Hk Hm HN Hn Hfc Hmu Hang Hnone omega state_E.
  assert (HE : state_E !! n = Some (Planck * omega * (INR n + 1 / 2))).
  { unfold state_E. rewrite state_E_lookup by exact Hn.
    unfold HBAR, omega. do 2 f_equal. lra. }
  split; [apply state_E_length|]. split; [exact HE|].
  split; [exact HBAR_is_Planck|].
  eexists _, _. split; [apply (calc_data_value vars (Some N) k m ang_wn); assumption|].
  split; [reflexivity|]. unfold Np.div_scalar.
  split; [rewrite length_map; apply state_E_length|].
  rewrite list_lookup_fmap. fold state_E. rewrite HE. reflexivity.
Qed.

Lemma calc_harmonic_energies_states_witness :
  let vars : gmap string (option R) :=
    <["fc" := Some 480]> (<["mu" := Some 1]> (<["ang_wn" := Some 1]> ∅)) in
  let omega := sqrt (480 / 1) / (2 * PI) in
  let state_E := (calc_harmonic_energies 480 1 5).1.1.1 in
  length state_E = Z.to_nat (5 + 1)
  /\ state_E !! 2%nat = Some (Planck * omega * (INR 2 + 1 / 2))
  /\ Planck = 2 * PI * hbar
  /\ exists data states,
       calc_data vars (Some 5%Z) = Py.Ok (Dash.value data)
       /\ data !! "states" = Some (floats states)
       /\ length states = Z.to_nat (5 + 1)
       /\ states !! 2%nat
          = Some (Planck * omega * (INR 2 + 1 / 2) / 1.98630E-23).
Proof.
  intros vars.
  apply (calc_harmonic_energies_states 480 1 5 2 vars 1);
    try reflexivity; try lra; try lia.
  apply None_in_values_false. vm_compute. reflexivity.
Defined.

(** C4. For k > 0, m > 0 and N >= 1, consecutive state energies are strictly
    increasing and differ by one and the same amount, HBAR omega. *)
Theorem calc_harmonic_energies_spacing (k m : R) (N : Z) (n : nat) :
  0 < k -> 0 < m -> (1 <= N)%Z -> (Z.of_nat n < N)%Z ->
  let state_E := (calc_harmonic_energies k m N).1.1.1 in
  exists E_n E_n1,
    state_E !! n = Some E_n
    /\ state_E !! S n = Some E_n1
    /\ E_n < E_n1
    /\ E_n1 - E_n = HBAR * (sqrt (k / m) / (2 * PI)).
Proof.
  intros Hk Hm HN Hn state_E. unfold state_E.
  eexists _, _.
  split; [apply state_E_lookup; lia|].
  split; [apply state_E_lookup; lia|].
  pose proof (omega_pos k m Hk Hm) as Hw. pose proof Planck_pos as Hp.
  assert (Hq : 0 < HBAR * (sqrt (k / m) / (2 * PI)))
    by (apply Rmult_lt_0_compat; assumption).
  rewrite S_INR. split; lra.
Qed.

Lemma calc_harmonic_energies_spacing_witness :
  let state_E := (calc_harmonic_energies 480 1 5).1.1.1 in
  exists E_n E_n1,
    state_E !! 3%nat = Some E_n
    /\ state_E !! 4%nat = Some E_n1
    /\ E_n < E_n1
    /\ E_n1 - E_n = HBAR * (sqrt (480 / 1) / (2 * PI)).
Proof.
  apply (calc_harmonic_energies_spacing 480 1 5 3); try lra; lia.
Defined.

(** ** calculate_mu, calculate_k *)

Lemma LIGHT_pos : 0 < LIGHT.
Proof. unfold LIGHT, speed_of_light. lra. Qed.

(** With the force constant and the reduced mass fixed, update_inputs
    derives the angular wavenumber from them. *)
Lemma update_inputs_ang_wn (lin_wn ang_wn fc mu : R) :
  store (update_inputs lin_wn ang_wn fc mu false false true true) !! "ang_wn"
  = Some (Some (sqrt (fc / (mu * 1.6605E-27)) / LIGHT)).
Proof. reflexivity. Qed.

(** C6, as stated, fails in its last part.  For omega = -1 and k = 1 the
    angular frequency derived again from the pair (k, calculate_mu(omega, k))
    is 1; and for k = 0 (for mu = 0) the derived pair is the same for
    omega = 1 and omega = 2. *)
Lemma rederive_omega_counterexample :
  -1 <> 0
  /\ (exists a,
        store (update_inputs 0 0 1 (calculate_mu (-1) 1)
                             false false true true) !! "ang_wn"
        = Some (Some a)
        /\ a * LIGHT = 1 /\ a * LIGHT <> -1)
  /\ (1 <> 2 /\ calculate_mu 1 0 = calculate_mu 2 0
             /\ calculate_k 1 0 = calculate_k 2 0).
Proof.
  pose proof LIGHT_pos as Hc.
  split; [lra|]. split.
  - eexists. split; [apply update_inputs_ang_wn|].
    assert (Hone : 1 / (calculate_mu (-1) 1 * 1.6605E-27) = 1)
      by (unfold calculate_mu; field; lra).
    rewrite Hone, sqrt_1.
    assert (Hl : 1 / LIGHT * LIGHT = 1) by (field; lra).
    rewrite Hl. split; lra.
  - split; [lra|]. unfold calculate_mu, calculate_k. split; lra.
Qed.

(** C6, amended. For omega <> 0 the two derivations undo each other:
    calculate_k(omega, calculate_mu(omega, k)) = k and
    calculate_mu(omega, calculate_k(omega, mu)) = mu.  When moreover
    omega > 0 and the given quantity is not 0, the angular frequency that
    update_inputs derives from the resulting pair (its angular wavenumber
    times LIGHT) is omega again. *)
Theorem calculate_k_mu_round_trip (w k mu lin_wn ang_wn : R) :
  w <> 0 ->
  calculate_k w (calculate_mu w k) = k
  /\ calculate_mu w (calculate_k w mu) = mu
  /\ (0 < w -> k <> 0 ->
      exists a,
        store (update_inputs lin_wn ang_wn k (calculate_mu w k)
                             false false true true) !! "ang_wn"
        = Some (Some a)
        /\ a * LIGHT = w)
  /\ (0 < w -> mu <> 0 ->
      exists a,
        store (update_inputs lin_wn ang_wn (calculate_k w mu) mu
                             false false true true) !! "ang_wn"
        = Some (Some a)
        /\ a * LIGHT = w).
Proof.
  intros Hw. pose proof LIGHT_pos as Hc.
  split; [unfold calculate_k, calculate_mu; field; split; [exact Hw | lra]|].
  split; [unfold calculate_k, calculate_mu; field; split; [exact Hw | lra]|].
  split.
  - intros Hpos Hk. eexists. split; [apply update_inputs_ang_wn|].
    assert (Hsq : k / (calculate_mu w k * 1.6605E-27) = w ^ 2)
      by (unfold calculate_mu; field; repeat split; (assumption || lra)).
    rewrite Hsq, sqrt_pow2 by lra. field. lra.
  - intros Hpos Hmu. eexists. split; [apply update_inputs_ang_wn|].
    assert (Hsq : calculate_k w mu / (mu * 1.6605E-27) = w ^ 2)
      by (unfold calculate_k; field; repeat split; (assumption || lra)).
    rewrite Hsq, sqrt_pow2 by lra. field. lra.
Qed.

Lemma calculate_k_mu_round_trip_witness :
  calculate_k 2 (calculate_mu 2 480) = 480
  /\ calculate_mu 2 (calculate_k 2 1) = 1
  /\ (exists a,
        store (update_inputs 0 0 480 (calculate_mu 2 480)
                             false false true true) !! "ang_wn"
        = Some (Some a)
        /\ a * LIGHT = 2)
  /\ (exists a,
        store (update_inputs 0 0 (calculate_k 2 1) 1
                             false false true true) !! "ang_wn"
        = Some (Some a)
        /\ a * LIGHT = 2).
Proof.
  destruct (calculate_k_mu_round_trip 2 480 1 0 0) as (H1 & H2 & H3 & H4);
    [lra|].
  split; [exact H1|]. split; [exact H2|].
  split; [apply H3; lra | apply H4; lra].
Defined.

(** ** update_plot *)

(** A comprehension whose body raises nothing on the elements it meets. *)
Lemma mapM_Ok_Forall {A B : Type} (f : A -> Py.result B) (g : A -> B)
    (l : list A) :
  Forall (fun a => f a = Py.Ok (g a)) l -> mapM f l = Py.Ok (map g l).
Proof.
  induction 1 as [|a l Ha _ IH]; [reflexivity|].
  cbn [mapM]. rewrite Ha. cbn. rewrite IH. reflexivity.
Qed.

(** The wavefunction traces are always built: each [state] is [[da, da]]. *)
Lemma wf_traces_built (x : list R) (wfs : list (list R)) (states : list R) :
  exists trs,
    mapM (fun '(wf, state) =>
            s0 ← Py.index state 0;
            Py.Ok {| sc_x := x;
                     sc_y := map (fun val => val * 0.01 + s0) wf;
                     sc_line_color := None; sc_mode := None |})
         (zip wfs (map (fun da => [da; da]) states))
    = Py.Ok trs.
Proof.
  eexists.
  apply (mapM_Ok_Forall _
           (fun p : list R * list R =>
              {| sc_x := x;
                 sc_y := map (fun val => val * 0.01 + hd 0 p.2) p.1;
                 sc_line_color := None; sc_mode := None |})).
  apply Forall_forall. intros [wf state] Hin.
  apply elem_of_zip_r in Hin.
  apply list_elem_of_fmap in Hin as [da [-> _]].
  reflexivity.
Qed.

Section UpdatePlot.

Variable data : gmap string value.
Variables x potential states : list R.
Variable wf : list (list R).
Hypothesis Hx : data !! "x" = Some (floats x).
Hypothesis Hpotential : data !! "potential" = Some (floats potential).
Hypothesis Hstates : data !! "states" = Some (floats states).
Hypothesis Hwf : data !! "wf" = Some (rows wf).
Hypothesis Hgrid : x <> [].

(** What update_plot does once the traces are built: the three look-ups
    into ['states'] decide the outcome. *)
Lemma update_plot_indexing :
  exists trs,
    update_plot data =
    (s_last ← Py.index states (-1);
     s_prev ← Py.index states (-2);
     s_first ← Py.index states 0;
     Py.Ok {| yaxis_range := [s_first - (s_last - s_prev) / 2;
                              2 * s_last - s_prev];
              traces := trs |}).
Proof.
  destruct (wf_traces_built x wf states) as [trs Htrs].
  destruct x as [|x0 xs] eqn:Ex; [contradiction|].
  eexists. unfold update_plot.
  rewrite (get_floats_Some _ _ _ Hx), (get_floats_Some _ _ _ Hpotential),
          (get_floats_Some _ _ _ Hstates), (get_rows_Some _ _ _ Hwf).
  cbn [mbind result_bind Py.bind' Py.min Py.max].
  rewrite Htrs. cbn [Py.bind']. reflexivity.
Qed.

Lemma update_plot_range (l0 : list R) (E_prev E_last : R) :
  states = l0 ++ [E_prev; E_last] ->
  exists fig E_0,
    update_plot data = Py.Ok fig
    /\ states !! 0%nat = Some E_0
    /\ yaxis_range fig
       = [E_0 - (E_last - E_prev) / 2; 2 * E_last - E_prev].
Proof.
  intros Hs. destruct update_plot_indexing as [trs ->].
  rewrite Hs, index_last_of_two, index_before_last.
  cbn [mbind result_bind Py.bind'].
  destruct l0 as [|E_0 l0]; cbn [app];
    rewrite index_first; eexists _, _; repeat split.
Qed.

Lemma update_plot_one_state (E : R) :
  states = [E] -> update_plot data = Py.Raise Py.IndexError.
Proof.
  intros Hs. destruct update_plot_indexing as [trs ->].
  rewrite Hs. reflexivity.
Qed.

End UpdatePlot.

(** C7. For every dataset with a non-empty grid and at least two state
    energies, update_plot returns a figure whose y-axis range is
    [E_0 - (E_N - E_{N-1})/2, 2 E_N - E_{N-1}], E_0 being the first and
    E_{N-1}, E_N the last two state energies. *)
Theorem update_plot_yaxis_range (data : gmap string value)
    (x potential states : list R) (wf : list (list R)) :
  data !! "x" = Some (floats x) ->
  data !! "potential" = Some (floats potential) ->
  data !! "states" = Some (floats states) ->
  data !! "wf" = Some (rows wf) ->
  x <> [] ->
  (2 <= length states)%nat ->
  exists fig E_0 E_prev E_last,
    update_plot data = Py.Ok fig
    /\ states !! 0%nat = Some E_0
    /\ states !! (length states - 2)%nat = Some E_prev
    /\ states !! (length states - 1)%nat = Some E_last
    /\ yaxis_range fig = [E_0 - (E_last - E_prev) / 2; 2 * E_last - E_prev].
Proof.
  intros Hx Hpotential Hstates Hwf Hgrid Hlen.
  destruct (two_last states Hlen) as (l0 & E_prev & E_last & Hs).
  destruct (update_plot_range data x potential states wf
              Hx Hpotential Hstates Hwf Hgrid l0 E_prev E_last Hs)
    as (fig & E_0 & Hfig & H0 & Hrange).
  exists fig, E_0, E_prev, E_last.
  split; [exact Hfig|]. split; [exact H0|].
  rewrite Hs, length_app. cbn [length].
  replace (length l0 + 2 - 2)%nat with (length l0 + 0)%nat by lia.
  replace (length l0 + 2 - 1)%nat with (length l0 + 1)%nat by lia.
  rewrite !lookup_app_r by lia.
  replace (length l0 + 0 - length l0)%nat with 0%nat by lia.
  replace (length l0 + 1 - length l0)%nat with 1%nat by lia.
  split; [reflexivity|]. split; [reflexivity | exact Hrange].
Qed.

Lemma update_plot_yaxis_range_witness :
  let states := [1; 3; 5] in
  let data : gmap string value :=
    <["x" := floats [-1; 1]]> (<["wf" := rows [[0; 0]]]>
    (<["states" := floats states]> (<["potential" := floats [1; 1]]> ∅))) in
  exists fig E_0 E_prev E_last,
    update_plot data = Py.Ok fig
    /\ states !! 0%nat = Some E_0
    /\ states !! (length states - 2)%nat = Some E_prev
    /\ states !! (length states - 1)%nat = Some E_last
    /\ yaxis_range fig = [E_0 - (E_last - E_prev) / 2; 2 * E_last - E_prev].
Proof.
  intros states data.
  apply (update_plot_yaxis_range data [-1; 1] [1; 1] states [[0; 0]]);
    try reflexivity; [discriminate | simpl; lia].
Defined.

(** ** The grid *)

Lemma linspace_length (start stop : R) (num : nat) :
  length (Np.linspace start stop num) = num.
Proof.
  unfold Np.linspace. destruct (num - 1)%nat;
    rewrite ?length_insert, length_map, length_seq; reflexivity.
Qed.

Lemma displacement_length (k m : R) (max_n : Z) :
  length (calc_harmonic_energies k m max_n).1.2 = 100%nat.
Proof. apply linspace_length. Qed.

(** C9. A dataset with a non-empty grid and exactly one state energy makes
    update_plot raise IndexError (at [states[-2]]), and calc_data produces
    such a dataset when max_n is 0. *)
Theorem update_plot_single_state (data : gmap string value)
    (x potential : list R) (E : R) (wf : list (list R))
    (vars : gmap string (option R)) (k m ang_wn : R) :
  data !! "x" = Some (floats x) ->
  data !! "potential" = Some (floats potential) ->
  data !! "states" = Some (floats [E]) ->
  data !! "wf" = Some (rows wf) ->
  x <> [] ->
  0 < k -> 0 < m ->
  vars !! "fc" = Some (Some k) ->
  vars !! "mu" = Some (Some m) ->
  vars !! "ang_wn" = Some (Some ang_wn) ->
  (forall key, vars !! key <> Some None) ->
  update_plot data = Py.Raise Py.IndexError
  /\ exists computed E_0,
       calc_data vars (Some 0%Z) = Py.Ok (Dash.value computed)
       /\ computed !! "states" = Some (floats [E_0])
       /\ update_plot computed = Py.Raise Py.IndexError.
Proof.
  intros Hx Hpotential Hstates Hwf Hgrid Hk Hm Hfc Hmu Hang Hnone.
  split.
  - exact (update_plot_one_state data x potential [E] wf
             Hx Hpotential Hstates Hwf Hgrid E eq_refl).
  - eexists _, _.
    split; [apply (calc_data_value vars (Some 0%Z) k m ang_wn); assumption|].
    split; [reflexivity|].
    eapply update_plot_one_state; try reflexivity.
    intros Hnil. apply (f_equal (@length R)) in Hnil.
    unfold Np.scale in Hnil.
    rewrite length_map, displacement_length in Hnil. discriminate.
Qed.

Lemma update_plot_single_state_witness :
  let data : gmap string value :=
    <["x" := floats [-1; 1]]> (<["wf" := rows [[0; 0]]]>
    (<["states" := floats [7]]> (<["potential" := floats [1; 1]]> ∅))) in
  let vars : gmap string (option R) :=
    <["fc" := Some 480]> (<["mu" := Some 1]> (<["ang_wn" := Some 1]> ∅)) in
  update_plot data = Py.Raise Py.IndexError
  /\ exists computed E_0,
       calc_data vars (Some 0%Z) = Py.Ok (Dash.value computed)
       /\ computed !! "states" = Some (floats [E_0])
       /\ update_plot computed = Py.Raise Py.IndexError.
Proof.
  intros data vars.
  apply (update_plot_single_state data [-1; 1] [1; 1] 7 [[0; 0]] vars 480 1 1);
    try reflexivity; try lra; try discriminate.
  apply None_in_values_false. vm_compute. reflexivity.
Defined.

(** The datasets that calc_data computes have their four entries, a grid
    of 100 points and max_n + 1 state energies; for max_n >= 1 update_plot
    accepts them. *)
Lemma calc_data_dataset (vars : gmap string (option R)) (max_n : option Z)
    (k m ang_wn : R) :
  vars !! "fc" = Some (Some k) ->
  vars !! "mu" = Some (Some m) ->
  vars !! "ang_wn" = Some (Some ang_wn) ->
  (forall key, vars !! key <> Some None) ->
  let N := match max_n with None => 5%Z | Some n => n end in
  exists data x potential states wf,
    calc_data vars max_n = Py.Ok (Dash.value data)
    /\ data !! "x" = Some (floats x)
    /\ data !! "potential" = Some (floats potential)
    /\ data !! "states" = Some (floats states)
    /\ data !! "wf" = Some (rows wf)
    /\ length x = 100%nat
    /\ length states = Z.to_nat (N + 1).
Proof.
  intros Hfc Hmu Hang Hnone N.
  eexists _, _, _, _, _.
  split; [apply (calc_data_value vars max_n k m ang_wn); assumption|].
  do 4 (split; [reflexivity|]). fold N. unfold Np.scale, Np.div_scalar.
  rewrite !length_map. split; [apply displacement_length | apply state_E_length].
Qed.

Lemma update_plot_of_calc_data (vars : gmap string (option R)) (N : Z)
    (k m ang_wn : R) :
  vars !! "fc" = Some (Some k) ->
  vars !! "mu" = Some (Some m) ->
  vars !! "ang_wn" = Some (Some ang_wn) ->
  (forall key, vars !! key <> Some None) ->
  (1 <= N)%Z ->
  exists data fig,
    calc_data vars (Some N) = Py.Ok (Dash.value data)
    /\ update_plot data = Py.Ok fig.
Proof.
  intros Hfc Hmu Hang Hnone HN.
  destruct (calc_data_dataset vars (Some N) k m ang_wn Hfc Hmu Hang Hnone)
    as (data & x & potential & states & wf
        & Hdata & Hx & Hp & Hs & Hwf & Hlx & Hls).
  assert (Hgrid : x <> []) by (intros ->; discriminate).
  destruct (two_last states) as (l0 & a & b & Hst); [lia|].
  destruct (update_plot_range data x potential states wf
              Hx Hp Hs Hwf Hgrid l0 a b Hst) as (fig & _ & Hfig & _).
  exists data, fig. split; assumption.
Qed.

(** C10. For the empty dictionary, the initial content of var_store, no
    value is None, so calc_data does not return no_update: it goes on to
    look up 'fc' and raises KeyError, whatever max_n is. *)
Theorem calc_data_empty_vars (max_n : option Z) :
  None_in_values var_store_data = false
  /\ calc_data var_store_data max_n = Py.Raise (Py.KeyError "fc").
Proof. split; reflexivity. Qed.

(** ** download_data *)

Lemma size_zero_empty (data : gmap string value) :
  (size data =? 0)%nat = true <-> data = ∅.
Proof. rewrite Nat.eqb_eq. apply map_size_empty_iff. Qed.

Lemma map_zip_map_l {A A' B C : Type} (g : A -> A') (f : A' * B -> C)
    (l : list A) (k : list B) :
  map f (zip (map g l) k) = map (fun p => f (g p.1, p.2)) (zip l k).
Proof.
  revert k. induction l as [|a l IH]; intros [|b k]; try reflexivity.
  cbn. rewrite IH. reflexivity.
Qed.

(** On a dataset that has its four entries, download_data writes the file
    with each stored displacement multiplied by 10E10. *)
Lemma download_data_layout (_nc : Z) (data : gmap string value)
    (x potential states : list R) (wf : list (list R)) :
  data !! "x" = Some (floats x) ->
  data !! "potential" = Some (floats potential) ->
  data !! "states" = Some (floats states) ->
  data !! "wf" = Some (rows wf) ->
  download_data _nc data =
  Py.Ok (Dash.value
    {| content := file_layout (map (fun di => di * 10E10) x)
                              states potential wf;
       filename := "waveplot_harmonic_data.dat" |}).
Proof.
  intros Hx Hpotential Hstates Hwf.
  unfold download_data.
  destruct (size data =? 0)%nat eqn:Hsize.
  { apply size_zero_empty in Hsize. subst data.
    rewrite lookup_empty in Hx. discriminate. }
  rewrite (get_floats_Some _ _ _ Hx), (get_floats_Some _ _ _ Hpotential),
          (get_floats_Some _ _ _ Hstates), (get_rows_Some _ _ _ Hwf).
  cbn [mbind result_bind Py.bind'].
  do 3 f_equal. unfold file_layout.
  rewrite <- !app_assoc. do 4 f_equal.
  rewrite !map_zip_map_l. f_equal.
  - f_equal. apply map_ext. intros [di se]. reflexivity.
  - do 2 f_equal. apply map_ext. intros [di row]. reflexivity.
Qed.

(** C8. Whatever the click count, download_data on the empty dataset
    returns no_update; whenever it returns a payload the dataset is not
    empty and the file name is 'waveplot_harmonic_data.dat'; and on a
    dataset that has its four entries it does return a payload. *)
Theorem download_data_no_dataset (_nc : Z) (data : gmap string value)
    (out : download) (x potential states : list R) (wf : list (list R)) :
  download_data _nc ∅ = Py.Ok Dash.no_update
  /\ (download_data _nc data = Py.Ok (Dash.value out) ->
      data <> ∅ /\ filename out = "waveplot_harmonic_data.dat")
  /\ (data !! "x" = Some (floats x) ->
      data !! "potential" = Some (floats potential) ->
      data !! "states" = Some (floats states) ->
      data !! "wf" = Some (rows wf) ->
      exists payload,
        download_data _nc data = Py.Ok (Dash.value payload)
        /\ filename payload = "waveplot_harmonic_data.dat").
Proof.
  split; [reflexivity|]. split.
  - unfold download_data. intros Hout.
    destruct (size data =? 0)%nat eqn:Hsize; [discriminate|].
    split.
    + intros ->. discriminate.
    + destruct (get_floats data "states") as [ss|e];
        cbn [mbind result_bind Py.bind'] in Hout; [|discriminate].
      destruct (get_floats data "x") as [xs|e];
        cbn [mbind result_bind Py.bind'] in Hout; [|discriminate].
      destruct (get_floats data "potential") as [ps|e];
        cbn [mbind result_bind Py.bind'] in Hout; [|discriminate].
      destruct (get_rows data "wf") as [ws|e];
        cbn [mbind result_bind Py.bind'] in Hout; [|discriminate].
      injection Hout as <-. reflexivity.
  - intros Hx Hpotential Hstates Hwf. eexists. split.
    + apply (download_data_layout _nc data x potential states wf);
        assumption.
    + reflexivity.
Qed.

Lemma download_data_no_dataset_witness :
  let data : gmap string value :=
    <["x" := floats [-1; 1]]> (<["wf" := rows [[0; 0]]]>
    (<["states" := floats [7]]> (<["potential" := floats [1; 1]]> ∅))) in
  let out :=
    {| content := file_layout (map (fun di => di * 10E10) [-1; 1])
                              [7] [1; 1] [[0; 0]];
       filename := "waveplot_harmonic_data.dat" |} in
  download_data 3 ∅ = Py.Ok Dash.no_update
  /\ (data <> ∅ /\ filename out = "waveplot_harmonic_data.dat")
  /\ (exists payload,
        download_data 3 data = Py.Ok (Dash.value payload)
        /\ filename payload = "waveplot_harmonic_data.dat").
Proof.
  intros data out.
  destruct (download_data_no_dataset 3 data out [-1; 1] [1; 1] [7] [[0; 0]])
    as (H1 & H2 & H3).
  split; [exact H1|]. split.
  - apply H2.
    apply (download_data_layout 3 data [-1; 1] [1; 1] [7] [[0; 0]]);
      reflexivity.
  - apply H3; reflexivity.
Defined.

(** ** calc_data followed by download_data *)

Lemma no_None_insert (vars : gmap string (option R)) (k : string) (v : R) :
  (forall key, vars !! key <> Some None) ->
  forall key, <[k := Some v]> vars !! key <> Some None.
Proof.
  intros Hvars key Hkey.
  apply lookup_insert_Some in Hkey as [[_ Hv]|[_ Hkey]]; [discriminate|].
  exact (Hvars key Hkey).
Qed.

Lemma initial_vars_defined : forall key, initial_vars !! key <> Some None.
Proof.
  unfold initial_vars, update_inputs.
  cbn [Py.sum fold_right Z.add Z.eqb negb orb andb store].
  do 4 apply no_None_insert.
  intros key. rewrite lookup_empty. discriminate.
Qed.

(** The grid starts at [start]. *)
Lemma linspace_first (start stop : R) (num : nat) :
  (2 <= num)%nat -> exists rest, Np.linspace start stop num = start :: rest.
Proof.
  intros Hnum. destruct num as [|[|n]]; [lia | lia |].
  unfold Np.linspace.
  replace (S (S n) - 1)%nat with (S n) by lia.
  cbn [seq map]. cbn [insert list_insert]. eexists. f_equal.
  simpl INR. ring.
Qed.

(** The turning point used for the grid is positive. *)
Lemma max_x_pos (k m : R) (max_n : Z) :
  0 < k -> 0 < m -> (0 <= max_n)%Z ->
  0 < sqrt ((IZR max_n + 0.5) * 2 * HBAR * (sqrt (k / m) / (2 * PI)) / k).
Proof.
  intros Hk Hm Hn. apply sqrt_lt_R0.
  pose proof (omega_pos k m Hk Hm) as Hw. pose proof Planck_pos as Hp.
  assert (Hz : 0 <= IZR max_n) by (apply IZR_le; exact Hn).
  apply Rdiv_lt_0_compat; [|exact Hk]. unfold HBAR.
  apply Rmult_lt_0_compat; [|exact Hw].
  apply Rmult_lt_0_compat; [lra | exact Hp].
Qed.

(** Where the first displacement of the potential table is written. *)
Lemma file_layout_first_displacement (d p : R) (shown states potential : list R)
    (wf : list (list R)) :
  file_layout (d :: shown) states (p :: potential) wf
    !! (10 + 2 * length states)%nat
  = Some (fixed 6 d).
Proof.
  unfold file_layout.
  assert (Hlen : length (concat (map (fun se => [fixed 6 se; text nl]) states))
                 = (2 * length states)%nat).
  { induction states as [|se states IH]; [reflexivity|].
    cbn [map concat app length] in *. rewrite IH. lia. }
  rewrite lookup_app_r by (cbn [length]; lia).
  rewrite lookup_app_r by (cbn [length]; lia).
  rewrite lookup_app_r by (cbn [length]; lia).
  rewrite lookup_app_r by (cbn [length]; lia).
  cbn [length]. rewrite Hlen.
  replace (10 + 2 * length states - 4 - 3 - 2 * length states - 3)%nat
    with 0%nat by lia.
  reflexivity.
Qed.

(** The file exported for a dataset that calc_data computed: both
    displacement columns hold the displacement in metres multiplied by
    10E10 twice, once by calc_data and once more by download_data. *)
Lemma export_of_calc_data (vars : gmap string (option R)) (max_n : option Z)
    (k m ang_wn : R) (_nc : Z) :
  vars !! "fc" = Some (Some k) ->
  vars !! "mu" = Some (Some m) ->
  vars !! "ang_wn" = Some (Some ang_wn) ->
  (forall key, vars !! key <> Some None) ->
  let N := match max_n with None => 5%Z | Some n => n end in
  let r := calc_harmonic_energies k m N in
  exists data,
    calc_data vars max_n = Py.Ok (Dash.value data)
    /\ download_data _nc data =
       Py.Ok (Dash.value
         {| content :=
              file_layout (map (fun d => d * 10E10 * 10E10) r.1.2)
                          (Np.div_scalar r.1.1.1 1.98630E-23)
                          (Np.div_scalar r.1.1.2 1.98630E-23)
                          (map (fun n : nat =>
                                  harmonic_wf n r.1.2 m (ang_wn * LIGHT))
                               (Py.range (N + 1)));
            filename := "waveplot_harmonic_data.dat" |}).
Proof.
  intros Hfc Hmu Hang Hnone N r.
  eexists. split; [apply (calc_data_value vars max_n k m ang_wn); assumption|].
  fold N. fold r.
  erewrite download_data_layout; try reflexivity.
  do 3 f_equal. unfold Np.scale. rewrite map_map.
  f_equal. apply map_ext. intros d. ring.
Qed.

(** C2, on the code. For the page's initial inputs and max_n = 5, the file
    exported from the dataset that calc_data computed has in both
    displacement columns the displacement in metres multiplied by 10E10
    twice; its first displacement is not the displacement in metres
    multiplied by 10E10 once. *)
Theorem export_displacement_scaled_twice :
  let m := 0.9768 * 1.6605E-27 in
  let r := calc_harmonic_energies 480 m 5 in
  exists data out states potential wf d0 rest,
    calc_data initial_vars (Some 5%Z) = Py.Ok (Dash.value data)
    /\ download_data 1 data = Py.Ok (Dash.value out)
    /\ r.1.2 = d0 :: rest
    /\ content out
       = file_layout (map (fun d => d * 10E10 * 10E10) r.1.2)
                     states potential wf
    /\ content out !! 22%nat = Some (fixed 6 (d0 * 10E10 * 10E10))
    /\ d0 * 10E10 * 10E10 <> d0 * 10E10.
Proof.
  intros m r.
  destruct (export_of_calc_data initial_vars (Some 5%Z) 480 m
              (sqrt (480 / (0.9768 * 1.6605E-27)) / LIGHT) 1)
    as (data & Hdata & Hout);
    [reflexivity | reflexivity | reflexivity | exact initial_vars_defined |].
  fold r in Hout.
  pose proof (max_x_pos 480 m 5) as Hmax.
  assert (Hgrid : exists rest,
             r.1.2 = (- sqrt ((IZR 5 + 0.5) * 2 * HBAR
                              * (sqrt (480 / m) / (2 * PI)) / 480) * 1.2)
                     :: rest)
    by (apply linspace_first; lia).
  destruct Hgrid as [rest Hgrid].
  set (max_x := sqrt ((IZR 5 + 0.5) * 2 * HBAR
                      * (sqrt (480 / m) / (2 * PI)) / 480)) in *.
  assert (Hpos : 0 < max_x) by (apply Hmax; unfold m; lra || lia).
  eexists data, _, _, _, _, (- max_x * 1.2), rest.
  split; [exact Hdata|]. split; [exact Hout|]. split; [exact Hgrid|].
  split; [reflexivity|]. split; [|lra].
  cbn [content].
  assert (Hpot : exists p ps,
             Np.div_scalar r.1.1.2 1.98630E-23 = p :: ps).
  { change r.1.1.2 with (Np.scale (0.5 * 480) (Np.square r.1.2)).
    rewrite Hgrid. eexists _, _. reflexivity. }
  destruct Hpot as (p & ps & ->). rewrite Hgrid. cbn [map].
  apply (file_layout_first_displacement _ p _
           (Np.div_scalar r.1.1.1 1.98630E-23)).
Qed.

(** * Further properties of the module *)

(** ** update_inputs on the ready path *)

(** Exactly two flags are fixed, and not both wavenumbers. *)
Ltac ready_cases lin_wn_fix ang_wn_fix fc_fix mu_fix Htwo Hnot :=
  destruct lin_wn_fix, ang_wn_fix, fc_fix, mu_fix;
  try (exfalso; discriminate Htwo);
  try (exfalso; apply Hnot; split; reflexivity).




(** The dictionary stored on the ready path, written out. *)
Lemma no_None_ready_store (l a k m : R) :
  forall key,
    (<["fc" := Some k]> (<["mu" := Some m]>
     (<["ang_wn" := Some a]> (<["lin_wn" := Some l]> ∅)))
       : gmap string (option R)) !! key <> Some None.
Proof.
  do 4 apply no_None_insert. intros key. rewrite lookup_empty. discriminate.
Qed.

Lemma calculate_mu_kg (w k : R) :
  0 < w -> 0 < k ->
  0 < calculate_mu w k * 1.6605E-27
  /\ k = calculate_mu w k * 1.6605E-27 * w ^ 2.
Proof.
  intros Hw Hk. unfold calculate_mu.
  assert (Hw2 : 0 < w ^ 2) by (apply pow_lt; exact Hw).
  replace (k / w ^ 2 / 1.6605E-27 * 1.6605E-27) with (k / w ^ 2)
    by (field; split; lra).
  split; [apply Rdiv_lt_0_compat; assumption | field; lra].
Qed.

Lemma calculate_k_pos (w mu : R) :
  0 < w -> 0 < mu ->
  0 < calculate_k w mu /\ calculate_k w mu = mu * 1.6605E-27 * w ^ 2.
Proof.
  intros Hw Hmu. unfold calculate_k.
  assert (Hw2 : 0 < w ^ 2) by (apply pow_lt; exact Hw).
  split; [|reflexivity]. apply Rmult_lt_0_compat; lra.
Qed.

(** On the ready path, with four positive inputs, the stored parameters are
    positive and agree with each other. *)
Lemma ready_store_consistent
    (lin_wn ang_wn fc mu : R) (lin_wn_fix ang_wn_fix fc_fix mu_fix : bool) :
  count_occ bool_dec [lin_wn_fix; ang_wn_fix; fc_fix; mu_fix] true = 2%nat ->
  ~ (lin_wn_fix = true /\ ang_wn_fix = true) ->
  0 < lin_wn -> 0 < ang_wn -> 0 < fc -> 0 < mu ->
  exists l a k m,
    store (update_inputs lin_wn ang_wn fc mu
                         lin_wn_fix ang_wn_fix fc_fix mu_fix)
    = <["fc" := Some k]> (<["mu" := Some m]>
      (<["ang_wn" := Some a]> (<["lin_wn" := Some l]> ∅)))
    /\ (0 < l /\ 0 < a /\ 0 < k /\ 0 < m)
    /\ a = 2 * PI * l
    /\ k = m * (a * LIGHT) ^ 2.
Proof.
  intros Htwo Hnot Hl Ha Hk Hm.
  pose proof LIGHT_pos as Hc. pose proof two_PI_gt_4 as Hpi.
  assert (Hlw : 0 < lin_wn * 2 * PI) by (apply Rmult_lt_0_compat; lra).
  assert (Hlo : 0 < lin_wn * 2 * PI * LIGHT)
    by (apply Rmult_lt_0_compat; lra).
  assert (Hao : 0 < ang_wn * LIGHT) by (apply Rmult_lt_0_compat; lra).
  assert (Hal : 0 < ang_wn / (2 * PI)) by (apply Rdiv_lt_0_compat; lra).
  ready_cases lin_wn_fix ang_wn_fix fc_fix mu_fix Htwo Hnot;
    (eexists _, _, _, _; split; [reflexivity|]).
  - (* linear wavenumber and force constant *)
    destruct (calculate_mu_kg _ fc Hlo Hk) as [Hpos Heq].
    repeat split;
      first [assumption | exact Heq | lra | ring | (field; lra)].
  - (* linear wavenumber and reduced mass *)
    destruct (calculate_k_pos _ mu Hlo Hm) as [Hpos Heq].
    repeat split;
      first [assumption | exact Heq | lra | ring | (field; lra)].
  - (* angular wavenumber and force constant *)
    destruct (calculate_mu_kg _ fc Hao Hk) as [Hpos Heq].
    repeat split;
      first [assumption | exact Heq | lra | ring | (field; lra)].
  - (* angular wavenumber and reduced mass *)
    destruct (calculate_k_pos _ mu Hao Hm) as [Hpos Heq].
    repeat split;
      first [assumption | exact Heq | lra | ring | (field; lra)].
  - (* force constant and reduced mass *)
    assert (Hq : 0 < fc / (mu * 1.6605E-27))
      by (apply Rdiv_lt_0_compat; lra).
    pose proof (sqrt_lt_R0 _ Hq) as Hs.
    assert (Ha' : 0 < sqrt (fc / (mu * 1.6605E-27)) / LIGHT)
      by (apply Rdiv_lt_0_compat; lra).
    repeat split; try assumption.
    + apply Rdiv_lt_0_compat; lra.
    + lra.
    + field. lra.
    + replace (sqrt (fc / (mu * 1.6605E-27)) / LIGHT * LIGHT)
        with (sqrt (fc / (mu * 1.6605E-27))) by (field; lra).
      rewrite pow2_sqrt by lra. field. lra.
Qed.

(** X3. On the ready path, with four positive inputs, update_inputs stores four
    positive numbers that agree with each other: the angular wavenumber is
    2 pi times the linear one, and the force constant is the mass (kg) times
    the square of the angular frequency (angular wavenumber times LIGHT).
    No stored value is None. *)
Theorem update_inputs_ready_consistent
    (lin_wn ang_wn fc mu : R) (lin_wn_fix ang_wn_fix fc_fix mu_fix : bool) :
  count_occ bool_dec [lin_wn_fix; ang_wn_fix; fc_fix; mu_fix] true = 2%nat ->
  ~ (lin_wn_fix = true /\ ang_wn_fix = true) ->
  0 < lin_wn -> 0 < ang_wn -> 0 < fc -> 0 < mu ->
  let r := update_inputs lin_wn ang_wn fc mu
                         lin_wn_fix ang_wn_fix fc_fix mu_fix in
  exists l a k m,
    store r !! "lin_wn" = Some (Some l)
    /\ store r !! "ang_wn" = Some (Some a)
    /\ store r !! "fc" = Some (Some k)
    /\ store r !! "mu" = Some (Some m)
    /\ (forall key, store r !! key <> Some None)
    /\ (0 < l /\ 0 < a /\ 0 < k /\ 0 < m)
    /\ a = 2 * PI * l
    /\ k = m * (a * LIGHT) ^ 2.
Proof.
  intros Htwo Hnot Hl Ha Hk Hm r.
  destruct (ready_store_consistent lin_wn ang_wn fc mu
              lin_wn_fix ang_wn_fix fc_fix mu_fix Htwo Hnot Hl Ha Hk Hm)
    as (l & a & k & m & Hstore & Hpos & Hal & Hkm).
  exists l, a, k, m. unfold r. rewrite Hstore.
  do 4 (split; [reflexivity|]).
  split; [apply no_None_ready_store|]. split; [exact Hpos|].
  split; assumption.
Qed.

Lemma update_inputs_ready_consistent_witness :
  let r := update_inputs 2888 18145.84 480 0.9768 true false true false in
  exists l a k m,
    store r !! "lin_wn" = Some (Some l)
    /\ store r !! "ang_wn" = Some (Some a)
    /\ store r !! "fc" = Some (Some k)
    /\ store r !! "mu" = Some (Some m)
    /\ (forall key, store r !! key <> Some None)
    /\ (0 < l /\ 0 < a /\ 0 < k /\ 0 < m)
    /\ a = 2 * PI * l
    /\ k = m * (a * LIGHT) ^ 2.
Proof.
  apply (update_inputs_ready_consistent 2888 18145.84 480 0.9768
           true false true false);
    try reflexivity; try lra; try (intros [H1 H2]; discriminate).
Defined.

(** X4. The level spacing that calc_harmonic_energies computes from the stored
    force constant and mass is HBAR * LIGHT times the stored linear
    wavenumber, whichever two parameters were fixed. *)
Theorem level_spacing_linear_wavenumber
    (lin_wn ang_wn fc mu : R) (lin_wn_fix ang_wn_fix fc_fix mu_fix : bool)
    (N : Z) (n : nat) :
  count_occ bool_dec [lin_wn_fix; ang_wn_fix; fc_fix; mu_fix] true = 2%nat ->
  ~ (lin_wn_fix = true /\ ang_wn_fix = true) ->
  0 < lin_wn -> 0 < ang_wn -> 0 < fc -> 0 < mu ->
  (Z.of_nat n < N)%Z ->
  let r := update_inputs lin_wn ang_wn fc mu
                         lin_wn_fix ang_wn_fix fc_fix mu_fix in
  exists l k m E_n E_n1,
    store r !! "lin_wn" = Some (Some l)
    /\ store r !! "fc" = Some (Some k)
    /\ store r !! "mu" = Some (Some m)
    /\ (calc_harmonic_energies k m N).1.1.1 !! n = Some E_n
    /\ (calc_harmonic_energies k m N).1.1.1 !! S n = Some E_n1
    /\ E_n1 - E_n = HBAR * LIGHT * l.
Proof.
  intros Htwo Hnot Hl Ha Hk Hm Hn r.
  destruct (ready_store_consistent lin_wn ang_wn fc mu
              lin_wn_fix ang_wn_fix fc_fix mu_fix Htwo Hnot Hl Ha Hk Hm)
    as (l & a & k & m & Hstore & (Hl' & Ha' & Hk' & Hm') & Hal & Hkm).
  pose proof LIGHT_pos as Hc. pose proof two_PI_gt_4 as Hpi.
  exists l, k, m. eexists _, _. unfold r. rewrite Hstore.
  do 3 (split; [reflexivity|]).
  split; [apply state_E_lookup; lia|].
  split; [apply state_E_lookup; lia|].
  assert (Hsq : sqrt (k / m) = a * LIGHT).
  { replace (k / m) with ((a * LIGHT) ^ 2) by (rewrite Hkm; field; lra).
    apply sqrt_pow2. nra. }
  rewrite Hsq, Hal, S_INR. field. lra.
Qed.

Lemma level_spacing_linear_wavenumber_witness :
  let r := update_inputs 2888 18145.84 480 0.9768 false false true true in
  exists l k m E_n E_n1,
    store r !! "lin_wn" = Some (Some l)
    /\ store r !! "fc" = Some (Some k)
    /\ store r !! "mu" = Some (Some m)
    /\ (calc_harmonic_energies k m 5).1.1.1 !! 2%nat = Some E_n
    /\ (calc_harmonic_energies k m 5).1.1.1 !! 3%nat = Some E_n1
    /\ E_n1 - E_n = HBAR * LIGHT * l.
Proof.
  apply (level_spacing_linear_wavenumber 2888 18145.84 480 0.9768
           false false true true 5 2);
    try reflexivity; try lra; try (intros [H1 H2]; discriminate).
Defined.

(** ** calc_data after update_inputs *)

Lemma None_in_values_true (vars : gmap string (option R)) (key : string) :
  vars !! key = Some None -> None_in_values vars = true.
Proof.
  intros Hkey. destruct (None_in_values vars) eqn:Hv; [reflexivity|].
  exfalso. exact (proj1 (None_in_values_false vars) Hv key Hkey).
Qed.

(** X5. Whenever update_inputs is not ready (the fixed flags are not exactly
    two, or both wavenumbers are fixed), calc_data on the dictionary it
    stored returns no_update, whatever the inputs and max_n are. *)
Theorem calc_data_not_ready
    (lin_wn ang_wn fc mu : R) (lin_wn_fix ang_wn_fix fc_fix mu_fix : bool)
    (max_n : option Z) :
  count_occ bool_dec [lin_wn_fix; ang_wn_fix; fc_fix; mu_fix] true <> 2%nat
  \/ (lin_wn_fix = true /\ ang_wn_fix = true) ->
  calc_data (store (update_inputs lin_wn ang_wn fc mu
                                  lin_wn_fix ang_wn_fix fc_fix mu_fix))
            max_n
  = Py.Ok Dash.no_update.
Proof.
  intros Hbad.
  assert (Hfc : store (update_inputs lin_wn ang_wn fc mu
                         lin_wn_fix ang_wn_fix fc_fix mu_fix) !! "fc"
                = Some None).
  { destruct lin_wn_fix, ang_wn_fix, fc_fix, mu_fix; try reflexivity;
      destruct Hbad as [Hn|[Hl Ha]];
      solve [ exfalso; apply Hn; reflexivity | discriminate ]. }
  unfold calc_data. rewrite (None_in_values_true _ _ Hfc). reflexivity.
Qed.

Lemma calc_data_not_ready_witness :
  calc_data (store (update_inputs 2888 18145.84 480 0.9768
                                  true true false false))
            (Some 5%Z)
  = Py.Ok Dash.no_update.
Proof.
  apply (calc_data_not_ready 2888 18145.84 480 0.9768
           true true false false (Some 5%Z)).
  right. split; reflexivity.
Defined.

(** ** The displacement grid and the potential *)

(** In exact arithmetic every sample of linspace, the last one included,
    is [start + i * (stop - start) / (num - 1)]. *)
Lemma linspace_lookup (start stop : R) (num i : nat) :
  (2 <= num)%nat -> (i < num)%nat ->
  exists d,
    Np.linspace start stop num !! i = Some d
    /\ d = start + INR i * ((stop - start) / INR (num - 1)).
Proof.
  intros Hnum Hi. unfold Np.linspace.
  destruct (num - 1)%nat as [|div'] eqn:Hdiv; [lia|].
  set (div := S div') in *.
  assert (Hdpos : 0 < INR div) by (apply lt_0_INR; unfold div; lia).
  destruct (decide (i = div)) as [->|Hne].
  - exists stop. split.
    + apply list_lookup_insert_eq. rewrite length_map, length_seq. lia.
    + field. lra.
  - eexists. split.
    + rewrite list_lookup_insert_ne by congruence.
      rewrite list_lookup_fmap, lookup_seq_lt by lia. reflexivity.
    + cbn [Nat.add]. ring.
Qed.

Section Grid.

Variables (k m : R) (max_n : Z).
Hypothesis Hk : 0 < k.
Hypothesis Hm : 0 < m.
Hypothesis Hn : (0 <= max_n)%Z.

Let omega := sqrt (k / m) / (2 * PI).
Let max_x := sqrt ((IZR max_n + 0.5) * 2 * HBAR * omega / k).
Let displacement := (calc_harmonic_energies k m max_n).1.2.
Let harmonic_E := (calc_harmonic_energies k m max_n).1.1.2.

Lemma max_x_sqr : max_x ^ 2 = (IZR max_n + 0.5) * 2 * HBAR * omega / k.
Proof.
  unfold max_x. apply pow2_sqrt.
  pose proof (omega_pos k m Hk Hm) as Hw. pose proof Planck_pos as Hp.
  assert (Hz : 0 <= IZR max_n) by (apply IZR_le; exact Hn).
  apply Rlt_le, Rdiv_lt_0_compat; [|exact Hk]. unfold HBAR.
  apply Rmult_lt_0_compat; [|exact Hw].
  apply Rmult_lt_0_compat; [lra | exact Hp].
Qed.

Lemma displacement_lookup (i : nat) :
  (i < 100)%nat ->
  displacement !! i = Some (- max_x * 1.2 + INR i * (max_x * 2.4 / 99)).
Proof.
  intros Hi.
  destruct (linspace_lookup (- max_x * 1.2) (max_x * 1.2) 100 i)
    as (d & Hd & ->); [lia | exact Hi |].
  unfold displacement. cbn [calc_harmonic_energies fst snd].
  fold omega. fold max_x. rewrite Hd. f_equal.
  change (100 - 1)%nat with 99%nat.
  replace (INR 99) with 99 by (simpl; lra).
  generalize (INR i). generalize max_x. intros a b. nra.
Qed.

Lemma harmonic_E_lookup (i : nat) (d : R) :
  displacement !! i = Some d -> harmonic_E !! i = Some (0.5 * k * d ^ 2).
Proof.
  intros Hd. unfold harmonic_E, displacement in *.
  cbn [calc_harmonic_energies fst snd] in *.
  unfold Np.scale, Np.square. rewrite !list_lookup_fmap, Hd. reflexivity.
Qed.

End Grid.

(** X6. For k > 0, m > 0 and max_n >= 0 the grid has 100 points, is symmetric
    about zero (point 99 - i is minus point i), lies within 1.2 times the
    turning point of the top state, and is strictly increasing. *)
Theorem displacement_grid (k m : R) (max_n : Z) (i : nat) :
  0 < k -> 0 < m -> (0 <= max_n)%Z -> (i < 100)%nat ->
  let displacement := (calc_harmonic_energies k m max_n).1.2 in
  let max_x :=
    sqrt ((IZR max_n + 0.5) * 2 * HBAR * (sqrt (k / m) / (2 * PI)) / k) in
  length displacement = 100%nat
  /\ exists d d',
       displacement !! i = Some d
       /\ displacement !! (99 - i)%nat = Some d'
       /\ d' = - d
       /\ - (1.2 * max_x) <= d <= 1.2 * max_x
       /\ ((i < 99)%nat ->
           exists d1, displacement !! S i = Some d1 /\ d < d1).
Proof.
  intros Hk Hm Hn Hi displacement max_x.
  pose proof (max_x_pos k m max_n Hk Hm Hn) as Hpos. fold max_x in Hpos.
  split; [apply displacement_length|].
  eexists _, _.
  split; [apply displacement_lookup; exact Hi|].
  split; [apply displacement_lookup; lia|].
  fold max_x.
  assert (Hi0 : 0 <= INR i) by apply pos_INR.
  assert (Hi99 : INR i <= 99).
  { replace 99 with (INR 99) by (simpl; lra). apply le_INR. lia. }
  split; [|split].
  - rewrite minus_INR by lia.
    replace (INR 99) with 99 by (simpl; lra).
    generalize dependent (INR i). generalize dependent max_x.
    intros a _ b _ _. nra.
  - generalize dependent (INR i). generalize dependent max_x.
    intros a Ha b Hb0 Hb99. split; nra.
  - intros Hlt. eexists. split; [apply displacement_lookup; lia|].
    fold max_x. rewrite S_INR.
    generalize dependent (INR i). generalize dependent max_x.
    intros a Ha b _ _. nra.
Qed.

Lemma displacement_grid_witness :
  let displacement := (calc_harmonic_energies 480 1 5).1.2 in
  let max_x :=
    sqrt ((IZR 5 + 0.5) * 2 * HBAR * (sqrt (480 / 1) / (2 * PI)) / 480) in
  length displacement = 100%nat
  /\ exists d d',
       displacement !! 3%nat = Some d
       /\ displacement !! (99 - 3)%nat = Some d'
       /\ d' = - d
       /\ - (1.2 * max_x) <= d <= 1.2 * max_x
       /\ exists d1, displacement !! 4%nat = Some d1 /\ d < d1.
Proof.
  destruct (displacement_grid 480 1 5 3) as (Hlen & d & d' & H1 & H2 & H3 & H4 & H5);
    try lra; try lia.
  split; [exact Hlen|]. exists d, d'.
  repeat (split; [assumption|]). apply H5. lia.
Defined.

(** X7. For k > 0, m > 0 and max_n >= 0 the sampled potential is symmetric,
    lies between 0 and 1.44 times the energy of the top state, and takes
    that largest value at the two ends of the grid. *)
Theorem harmonic_potential_range (k m : R) (max_n : Z) (i : nat) :
  0 < k -> 0 < m -> (0 <= max_n)%Z -> (i < 100)%nat ->
  let r := calc_harmonic_energies k m max_n in
  exists V V' V_0 V_99 E_top,
    r.1.1.2 !! i = Some V
    /\ r.1.1.2 !! (99 - i)%nat = Some V'
    /\ r.1.1.2 !! 0%nat = Some V_0
    /\ r.1.1.2 !! 99%nat = Some V_99
    /\ r.1.1.1 !! Z.to_nat max_n = Some E_top
    /\ V' = V
    /\ 0 <= V <= 1.44 * E_top
    /\ V_0 = 1.44 * E_top
    /\ V_99 = 1.44 * E_top.
Proof.
  intros Hk Hm Hn Hi r.
  pose proof (max_x_sqr k m max_n Hk Hm Hn) as Hsq.
  pose proof (max_x_pos k m max_n Hk Hm Hn) as Hpos.
  set (max_x := sqrt ((IZR max_n + 0.5) * 2 * HBAR
                      * (sqrt (k / m) / (2 * PI)) / k)) in *.
  set (w := sqrt (k / m) / (2 * PI)) in *.
  assert (HkE : k * max_x ^ 2 = (IZR max_n + 0.5) * 2 * HBAR * w)
    by (rewrite Hsq; field; lra).
  assert (Hi0 : 0 <= INR i) by apply pos_INR.
  assert (Hi99 : INR i <= 99).
  { replace 99 with (INR 99) by (simpl; lra). apply le_INR. lia. }
  eexists _, _, _, _, _.
  split; [apply harmonic_E_lookup, displacement_lookup; exact Hi|].
  split; [apply harmonic_E_lookup, displacement_lookup; lia|].
  split; [apply harmonic_E_lookup, displacement_lookup; lia|].
  split; [apply harmonic_E_lookup, displacement_lookup; lia|].
  split; [apply state_E_lookup; lia|].
  fold w. fold max_x.
  rewrite (INR_IZR_INZ (Z.to_nat max_n)), Z2Nat.id by exact Hn.
  rewrite minus_INR by lia.
  replace (INR 99) with 99 by (simpl; lra).
  replace (INR 0) with 0 by reflexivity.
  clear Hsq. clearbody max_x w.
  generalize dependent (INR i). intros b Hb0 Hb99.
  assert (Hk2 : k * (max_x * max_x) = (IZR max_n + 0.5) * 2 * (HBAR * w))
    by (transitivity (k * max_x ^ 2); [ring | rewrite HkE; ring]).
  clear HkE. set (E := HBAR * w) in *. clearbody E.
  set (q := max_x * max_x) in *.
  repeat split.
  - unfold q. nra.
  - assert (0 <= k * (- max_x * 1.2 + b * (max_x * 2.4 / 99)) ^ 2)
      by (apply Rmult_le_pos; [lra | apply pow2_ge_0]).
    nra.
  - assert (Hd : (- max_x * 1.2 + b * (max_x * 2.4 / 99)) ^ 2
                 <= 1.44 * q).
    { unfold q.
      assert (0 <= max_x * max_x * (b * (99 - b))) by
        (apply Rmult_le_pos; [nra | apply Rmult_le_pos; lra]).
      nra. }
    assert (k * (- max_x * 1.2 + b * (max_x * 2.4 / 99)) ^ 2
            <= k * (1.44 * q)) by (apply Rmult_le_compat_l; lra).
    nra.
  - unfold q in *. nra.
  - unfold q in *. nra.
Qed.

Lemma harmonic_potential_range_witness :
  let r := calc_harmonic_energies 480 1 5 in
  exists V V' V_0 V_99 E_top,
    r.1.1.2 !! 7%nat = Some V
    /\ r.1.1.2 !! (99 - 7)%nat = Some V'
    /\ r.1.1.2 !! 0%nat = Some V_0
    /\ r.1.1.2 !! 99%nat = Some V_99
    /\ r.1.1.1 !! Z.to_nat 5 = Some E_top
    /\ V' = V
    /\ 0 <= V <= 1.44 * E_top
    /\ V_0 = 1.44 * E_top
    /\ V_99 = 1.44 * E_top.
Proof.
  apply (harmonic_potential_range 480 1 5 7); try lra; lia.
Defined.

(** X8. For k > 0, m > 0 and max_n >= 0 the zero point displacement returned
    is positive and is the classical turning point of the ground state: the
    potential there, k zpd^2 / 2, is the first state energy. *)
Theorem zero_point_displacement (k m : R) (max_n : Z) :
  0 < k -> 0 < m -> (0 <= max_n)%Z ->
  let r := calc_harmonic_energies k m max_n in
  exists E_0,
    r.1.1.1 !! 0%nat = Some E_0
    /\ 0 < r.2
    /\ 0.5 * k * r.2 ^ 2 = E_0.
Proof.
  intros Hk Hm Hn r.
  pose proof (omega_pos k m Hk Hm) as Hw. pose proof Planck_pos as Hp.
  eexists. split; [apply state_E_lookup; lia|].
  cbn [calc_harmonic_energies r fst snd].
  set (w := sqrt (k / m) / (2 * PI)) in *.
  assert (Hq : 0 < HBAR * w / k).
  { apply Rdiv_lt_0_compat; [|exact Hk].
    apply Rmult_lt_0_compat; assumption. }
  split; [apply sqrt_lt_R0; exact Hq|].
  rewrite pow2_sqrt by lra. simpl INR.
  transitivity (0.5 * (HBAR * w) * (k / k)); [unfold Rdiv; ring|].
  replace (k / k) with 1 by (field; lra). nra.
Qed.

Lemma zero_point_displacement_witness :
  let r := calc_harmonic_energies 480 1 5 in
  exists E_0,
    r.1.1.1 !! 0%nat = Some E_0
    /\ 0 < r.2
    /\ 0.5 * 480 * r.2 ^ 2 = E_0.
Proof.
  apply (zero_point_displacement 480 1 5); try lra; lia.
Defined.

(** ** The dataset computed by calc_data *)

Lemma harmonic_wf_length (n : nat) (x : Np.ndarray) (m omega : R) :
  length (harmonic_wf n x m omega) = length x.
Proof.
  unfold harmonic_wf, Np.mul, Np.scale, Np.exp.
  rewrite length_zip_with, !length_map, hermite_length, length_map. lia.
Qed.

(** The shape of the dataset that calc_data computes. *)
Lemma calc_data_lengths (vars : gmap string (option R)) (max_n : option Z)
    (k m ang_wn : R) :
  vars !! "fc" = Some (Some k) ->
  vars !! "mu" = Some (Some m) ->
  vars !! "ang_wn" = Some (Some ang_wn) ->
  (forall key, vars !! key <> Some None) ->
  let N := match max_n with None => 5%Z | Some n => n end in
  exists data x potential states wf,
    calc_data vars max_n = Py.Ok (Dash.value data)
    /\ data !! "x" = Some (floats x)
    /\ data !! "potential" = Some (floats potential)
    /\ data !! "states" = Some (floats states)
    /\ data !! "wf" = Some (rows wf)
    /\ length x = 100%nat
    /\ length potential = 100%nat
    /\ length states = Z.to_nat (N + 1)
    /\ length wf = Z.to_nat (N + 1)
    /\ Forall (fun row => length row = 100%nat) wf.
Proof.
  intros Hfc Hmu Hang Hnone N.
  eexists _, _, _, _, _.
  split; [apply (calc_data_value vars max_n k m ang_wn); assumption|].
  do 4 (split; [reflexivity|]). fold N.
  unfold Np.scale, Np.div_scalar.
  split; [rewrite length_map; apply displacement_length|].
  split.
  { cbn [calc_harmonic_energies fst snd]. unfold Np.scale, Np.square.
    rewrite !length_map. apply linspace_length. }
  split; [rewrite length_map; apply state_E_length|].
  split; [rewrite length_map; apply range_length|].
  apply Forall_forall. intros row Hrow.
  apply list_elem_of_fmap in Hrow as (n & -> & _).
  rewrite harmonic_wf_length. apply displacement_length.
Qed.







(** ** hermite and harmonic_wf, point by point *)

Lemma zip_with_map_same {A B C D : Type} (f : B -> C -> D)
    (g : A -> B) (h : A -> C) (l : list A) :
  zip_with f (map g l) (map h l) = map (fun a => f (g a) (h a)) l.
Proof.
  induction l as [|a l IH]; [reflexivity|]. cbn. rewrite IH. reflexivity.
Qed.

Lemma hermite_poly_step (n : nat) (v : R) :
  hermite_poly (S (S n)) v
  = 2 * v * hermite_poly (S n) v - 2 * INR (S n) * hermite_poly n v.
Proof. reflexivity. Qed.

Lemma hermite_map (n : nat) (x : Np.ndarray) :
  hermite n x = map (hermite_poly n) x.
Proof.
  enough (H : hermite n x = map (hermite_poly n) x
              /\ hermite (S n) x = map (hermite_poly (S n)) x) by apply H.
  induction n as [|n [IH0 IH1]].
  - split; [apply map_ext; intros v; cbn; ring | reflexivity].
  - split; [exact IH1|].
    rewrite hermite_step, IH0, IH1. unfold Np.sub, Np.mul, Np.scale.
    rewrite zip_with_map_same, map_map, zip_with_map_same.
    apply map_ext. intros v. rewrite hermite_poly_step, (S_INR (S n)). ring.
Qed.

Lemma hermite_poly_parity (n : nat) (v : R) :
  hermite_poly n (- v) = (-1) ^ n * hermite_poly n v.
Proof.
  enough (H : hermite_poly n (- v) = (-1) ^ n * hermite_poly n v
              /\ hermite_poly (S n) (- v)
                 = (-1) ^ S n * hermite_poly (S n) v) by apply H.
  induction n as [|n [IH0 IH1]].
  - split; cbn; ring.
  - split; [exact IH1|].
    rewrite !hermite_poly_step, IH0, IH1. cbn [pow]. ring.
Qed.

(** X11. hermite works point by point: its value at each point of [x] is the
    Hermite polynomial of that point (for instance 8v^3 - 12v at order 3 and
    16v^4 - 48v^2 + 12 at order 4), and changing the sign of [x] multiplies
    the result by (-1)^n. *)
Theorem hermite_pointwise_parity (n : nat) (x : Np.ndarray) :
  hermite n x = map (hermite_poly n) x
  /\ hermite 3 x = map (fun v => 8 * v ^ 3 - 12 * v) x
  /\ hermite 4 x = map (fun v => 16 * v ^ 4 - 48 * v ^ 2 + 12) x
  /\ hermite n (map Ropp x) = map (fun h => (-1) ^ n * h) (hermite n x).
Proof.
  split; [apply hermite_map|].
  split; [rewrite hermite_map; apply map_ext; intros v; cbn; ring|].
  split; [rewrite hermite_map; apply map_ext; intros v; cbn; ring|].
  rewrite !hermite_map, !map_map. apply map_ext. intros v.
  apply hermite_poly_parity.
Qed.

(** The value of harmonic_wf at each point of [x]. *)
Lemma harmonic_wf_map (n : nat) (x : Np.ndarray) (m omega : R) :
  let beta := sqrt (m * omega / HBAR) in
  let N := 1 / sqrt (2 ^ n * INR (fact n))
           * Rpower ((m * omega) / (PI * HBAR)) 0.25 in
  harmonic_wf n x m omega
  = map (fun v => N * hermite_poly n (beta * v)
                  * exp (- beta ^ 2 * v ^ 2 * 0.5)) x.
Proof.
  intros beta N. unfold harmonic_wf, Np.mul, Np.scale, Np.exp.
  fold beta. fold N.
  rewrite hermite_map, !map_map, zip_with_map_same. reflexivity.
Qed.


(** X12. harmonic_wf keeps the shape of [x], and the nth state has the parity of
    n: changing the sign of every displacement multiplies the wavefunction
    by (-1)^n. *)
Theorem harmonic_wf_parity (n : nat) (x : Np.ndarray) (m omega : R) :
  length (harmonic_wf n x m omega) = length x
  /\ harmonic_wf n (map Ropp x) m omega
     = map (fun y => (-1) ^ n * y) (harmonic_wf n x m omega).
Proof.
  split; [apply harmonic_wf_length|].
  rewrite !harmonic_wf_map, !map_map. apply map_ext. intros v.
  replace (sqrt (m * omega / HBAR) * - v)
    with (- (sqrt (m * omega / HBAR) * v)) by ring.
  rewrite hermite_poly_parity.
  replace ((- v) ^ 2) with (v ^ 2) by ring. ring.
Qed.

(** X13. In the dataset that calc_data computes, the wavefunction of state n is
    symmetric on the grid for even n and antisymmetric for odd n: its value
    at point 99 - i is (-1)^n times its value at point i. *)
Theorem stored_wavefunction_parity (vars : gmap string (option R)) (N : Z)
    (k m ang_wn : R) (n i : nat) :
  vars !! "fc" = Some (Some k) ->
  vars !! "mu" = Some (Some m) ->
  vars !! "ang_wn" = Some (Some ang_wn) ->
  (forall key, vars !! key <> Some None) ->
  0 < k -> 0 < m -> 0 < ang_wn ->
  (Z.of_nat n <= N)%Z -> (i < 100)%nat ->
  exists data wf row y y',
    calc_data vars (Some N) = Py.Ok (Dash.value data)
    /\ data !! "wf" = Some (rows wf)
    /\ wf !! n = Some row
    /\ row !! i = Some y
    /\ row !! (99 - i)%nat = Some y'
    /\ y' = (-1) ^ n * y.
Proof.
  intros Hfc Hmu Hang Hnone Hk Hm Ha Hn Hi.
  eexists _, _, _, _, _.
  split; [apply (calc_data_value vars (Some N) k m ang_wn); assumption|].
  split; [reflexivity|].
  split; [rewrite list_lookup_fmap, range_lookup by lia; reflexivity|].
  rewrite harmonic_wf_map.
  split; [rewrite list_lookup_fmap, displacement_lookup by exact Hi;
          reflexivity|].
  split; [rewrite list_lookup_fmap, displacement_lookup by lia;
          reflexivity|].
  rewrite minus_INR by lia.
  replace (INR 99) with 99 by (simpl; lra).
  set (max_x := sqrt ((IZR N + 0.5) * 2 * HBAR
                      * (sqrt (k / m) / (2 * PI)) / k)).
  set (beta := sqrt (m * (ang_wn * LIGHT) / HBAR)).
  replace (- max_x * 1.2 + (99 - INR i) * (max_x * 2.4 / 99))
    with (- (- max_x * 1.2 + INR i * (max_x * 2.4 / 99)))
    by (generalize (INR i); generalize max_x; intros a b; nra).
  set (d := - max_x * 1.2 + INR i * (max_x * 2.4 / 99)).
  replace (beta * - d) with (- (beta * d)) by ring.
  rewrite hermite_poly_parity.
  replace ((- d) ^ 2) with (d ^ 2) by ring. ring.
Qed.

Lemma stored_wavefunction_parity_witness :
  exists data wf row y y',
    calc_data initial_vars (Some 5%Z) = Py.Ok (Dash.value data)
    /\ data !! "wf" = Some (rows wf)
    /\ wf !! 3%nat = Some row
    /\ row !! 10%nat = Some y
    /\ row !! (99 - 10)%nat = Some y'
    /\ y' = (-1) ^ 3 * y.
Proof.
  apply (stored_wavefunction_parity initial_vars 5 480
           (0.9768 * 1.6605E-27)
           (sqrt (480 / (0.9768 * 1.6605E-27)) / LIGHT) 3 10);
    try reflexivity; try exact initial_vars_defined; try lra; try lia.
  apply Rdiv_lt_0_compat; [|exact LIGHT_pos].
  apply sqrt_lt_R0, Rdiv_lt_0_compat; lra.
Defined.



(** ** The traces of update_plot *)

Lemma fold_left_Rmin_spec (l : list R) (a : R) :
  let r := fold_left Rmin l a in
  r ∈ a :: l /\ forall v, v ∈ a :: l -> r <= v.
Proof.
  revert a. induction l as [|b l IH]; intros a; cbn.
  - split; [left|]. intros v Hv. apply list_elem_of_singleton in Hv. lra.
  - destruct (IH (Rmin a b)) as [Hin Hle]. split.
    + apply elem_of_cons in Hin as [Heq|Hin].
      * rewrite Heq. unfold Rmin. destruct (Rle_dec a b).
        -- left.
        -- right. left.
      * right. right. exact Hin.
    + intros v Hv.
      assert (Hm : fold_left Rmin l (Rmin a b) <= Rmin a b)
        by (apply Hle; left).
      apply elem_of_cons in Hv as [->|Hv].
      * pose proof (Rmin_l a b). lra.
      * apply elem_of_cons in Hv as [->|Hv].
        -- pose proof (Rmin_r a b). lra.
        -- apply Hle. right. exact Hv.
Qed.

Lemma fold_left_Rmax_spec (l : list R) (a : R) :
  let r := fold_left Rmax l a in
  r ∈ a :: l /\ forall v, v ∈ a :: l -> v <= r.
Proof.
  revert a. induction l as [|b l IH]; intros a; cbn.
  - split; [left|]. intros v Hv. apply list_elem_of_singleton in Hv. lra.
  - destruct (IH (Rmax a b)) as [Hin Hle]. split.
    + apply elem_of_cons in Hin as [Heq|Hin].
      * rewrite Heq. unfold Rmax. destruct (Rle_dec a b).
        -- right. left.
        -- left.
      * right. right. exact Hin.
    + intros v Hv.
      assert (Hm : Rmax a b <= fold_left Rmax l (Rmax a b))
        by (apply Hle; left).
      apply elem_of_cons in Hv as [->|Hv].
      * pose proof (Rmax_l a b). lra.
      * apply elem_of_cons in Hv as [->|Hv].
        -- pose proof (Rmax_r a b). lra.
        -- apply Hle. right. exact Hv.
Qed.

(** The wavefunction traces, written out. *)
Lemma wf_traces_explicit (x : list R) (wfs : list (list R)) (states : list R) :
  mapM (fun '(wf, state) =>
          s0 ← Py.index state 0;
          Py.Ok {| sc_x := x;
                   sc_y := map (fun val => val * 0.01 + s0) wf;
                   sc_line_color := None; sc_mode := None |})
       (zip wfs (map (fun da => [da; da]) states))
  = Py.Ok (map (fun p : list R * R =>
                  {| sc_x := x;
                     sc_y := map (fun val => val * 0.01 + p.2) p.1;
                     sc_line_color := None; sc_mode := None |})
               (zip wfs states)).
Proof.
  revert states. induction wfs as [|wf wfs IH]; intros [|E states];
    try reflexivity.
  cbn [map zip zip_with mapM]. cbn [mbind result_bind Py.bind' Py.index].
  specialize (IH states). cbn [zip] in IH. rewrite IH. reflexivity.
Qed.

(** X15. For a dataset with its four entries, a non-empty grid and at least two
    state energies, the figure holds, in this order: the potential curve
    over the grid; for each state energy E a black line from the smallest
    to the largest grid value at height E; and for each wavefunction paired
    with its state energy E the curve 0.01 * wf + E over the grid. *)
Theorem update_plot_traces (data : gmap string value)
    (x potential states : list R) (wf : list (list R)) :
  data !! "x" = Some (floats x) ->
  data !! "potential" = Some (floats potential) ->
  data !! "states" = Some (floats states) ->
  data !! "wf" = Some (rows wf) ->
  x <> [] ->
  (2 <= length states)%nat ->
  exists fig x_min x_max,
    update_plot data = Py.Ok fig
    /\ x_min ∈ x /\ x_max ∈ x
    /\ (forall v, v ∈ x -> x_min <= v <= x_max)
    /\ traces fig =
       [ {| sc_x := x; sc_y := potential;
            sc_line_color := None; sc_mode := None |} ]
       ++ map (fun E => {| sc_x := [x_min; x_max]; sc_y := [E; E];
                           sc_line_color := Some "black";
                           sc_mode := Some "lines" |}) states
       ++ map (fun p : list R * R =>
                 {| sc_x := x;
                    sc_y := map (fun val => val * 0.01 + p.2) p.1;
                    sc_line_color := None; sc_mode := None |})
              (zip wf states)
    /\ length (traces fig)
       = (1 + length states + Nat.min (length wf) (length states))%nat.
Proof.
  intros Hx Hpotential Hstates Hwf Hgrid Hlen.
  destruct x as [|x0 xs] eqn:Ex; [contradiction|].
  destruct (two_last states Hlen) as (l0 & E_prev & E_last & Hs).
  assert (Hi1 : Py.index states (-1) = Py.Ok E_last)
    by (rewrite Hs; apply index_last_of_two).
  assert (Hi2 : Py.index states (-2) = Py.Ok E_prev)
    by (rewrite Hs; apply index_before_last).
  assert (Hi0 : exists E_0, Py.index states 0 = Py.Ok E_0)
    by (rewrite Hs; destruct l0; eexists; reflexivity).
  destruct Hi0 as [E_0 Hi0].
  destruct (fold_left_Rmin_spec xs x0) as [Hmin_in Hmin].
  destruct (fold_left_Rmax_spec xs x0) as [Hmax_in Hmax].
  assert (Hfig : exists fig,
    update_plot data = Py.Ok fig
    /\ traces fig =
       [ {| sc_x := x0 :: xs; sc_y := potential;
            sc_line_color := None; sc_mode := None |} ]
       ++ map (fun E => {| sc_x := [fold_left Rmin xs x0;
                                    fold_left Rmax xs x0];
                           sc_y := [E; E];
                           sc_line_color := Some "black";
                           sc_mode := Some "lines" |}) states
       ++ map (fun p : list R * R =>
                 {| sc_x := x0 :: xs;
                    sc_y := map (fun val => val * 0.01 + p.2) p.1;
                    sc_line_color := None; sc_mode := None |})
              (zip wf states)).
  { unfold update_plot.
    rewrite (get_floats_Some _ _ _ Hx), (get_floats_Some _ _ _ Hpotential),
            (get_floats_Some _ _ _ Hstates), (get_rows_Some _ _ _ Hwf).
    cbn [mbind result_bind Py.bind' Py.min Py.max].
    rewrite wf_traces_explicit. cbn [Py.bind'].
    rewrite Hi1, Hi2, Hi0. cbn [Py.bind'].
    eexists. split; [reflexivity|]. cbn [traces].
    rewrite map_map. reflexivity. }
  destruct Hfig as (fig & Hfig & Htr).
  exists fig, (fold_left Rmin xs x0), (fold_left Rmax xs x0).
  split; [exact Hfig|]. split; [exact Hmin_in|]. split; [exact Hmax_in|].
  split; [intros v Hv; split; [apply Hmin | apply Hmax]; exact Hv|].
  split; [exact Htr|].
  rewrite Htr, !length_app, !length_map, length_zip. cbn [length]. lia.
Qed.

Lemma update_plot_traces_witness :
  let x := [-1; 1] in
  let potential := [1; 1] in
  let states := [1; 3; 5] in
  let wf := [[0; 0]] in
  let data : gmap string value :=
    <["x" := floats x]> (<["wf" := rows wf]>
    (<["states" := floats states]> (<["potential" := floats potential]> ∅))) in
  exists fig x_min x_max,
    update_plot data = Py.Ok fig
    /\ x_min ∈ x /\ x_max ∈ x
    /\ (forall v, v ∈ x -> x_min <= v <= x_max)
    /\ traces fig =
       [ {| sc_x := x; sc_y := potential;
            sc_line_color := None; sc_mode := None |} ]
       ++ map (fun E => {| sc_x := [x_min; x_max]; sc_y := [E; E];
                           sc_line_color := Some "black";
                           sc_mode := Some "lines" |}) states
       ++ map (fun p : list R * R =>
                 {| sc_x := x;
                    sc_y := map (fun val => val * 0.01 + p.2) p.1;
                    sc_line_color := None; sc_mode := None |})
              (zip wf states)
    /\ length (traces fig)
       = (1 + length states + Nat.min (length wf) (length states))%nat.
Proof.
  intros x potential states wf data.
  apply (update_plot_traces data x potential states wf);
    try reflexivity; [discriminate | simpl; lia].
Defined.


(** X17. For a dataset computed with k > 0, m > 0 and max_n >= 1, the y-axis of
    the figure starts at exactly 0 and ends at the energy that state
    max_n + 1 would have, HBAR omega (max_n + 3/2) in cm-1. *)
Theorem computed_yaxis_range (vars : gmap string (option R)) (N : Z)
    (k m ang_wn : R) :
  vars !! "fc" = Some (Some k) ->
  vars !! "mu" = Some (Some m) ->
  vars !! "ang_wn" = Some (Some ang_wn) ->
  (forall key, vars !! key <> Some None) ->
  0 < k -> 0 < m -> (1 <= N)%Z ->
  exists data fig lowen upen,
    calc_data vars (Some N) = Py.Ok (Dash.value data)
    /\ update_plot data = Py.Ok fig
    /\ yaxis_range fig = [lowen; upen]
    /\ lowen = 0
    /\ upen = HBAR * (sqrt (k / m) / (2 * PI)) * (IZR N + 1.5) / 1.98630E-23.
Proof.
  intros Hfc Hmu Hang Hnone Hk Hm HN.
  pose proof (calc_data_value vars (Some N) k m ang_wn Hfc Hmu Hang Hnone)
    as Hdata. cbv zeta in Hdata.
  set (r := calc_harmonic_energies k m N) in *.
  set (w := sqrt (k / m) / (2 * PI)).
  set (g := fun n : nat => HBAR * w * (INR n + 0.5) / 1.98630E-23).
  set (p := Z.to_nat (N - 1)).
  assert (Hst : Np.div_scalar r.1.1.1 1.98630E-23
                = map g (seq 0 p) ++ [g p; g (S p)]).
  { unfold r. cbn [calc_harmonic_energies fst snd]. unfold Np.div_scalar.
    rewrite map_map. unfold Py.range.
    replace (Z.to_nat (N + 1)) with (p + 2)%nat by (unfold p; lia).
    rewrite seq_app, map_app. reflexivity. }
  match type of Hdata with
  | _ = Py.Ok (Dash.value ?d) => set (data := d) in *
  end.
  assert (Hgrid : Np.scale 10E10 r.1.2 <> []).
  { intros Hnil. apply (f_equal (@length R)) in Hnil.
    unfold Np.scale, r in Hnil.
    rewrite length_map, displacement_length in Hnil. discriminate. }
  destruct (update_plot_range data _ _ _ _
              eq_refl eq_refl eq_refl eq_refl Hgrid _ _ _ Hst)
    as (fig & E_0 & Hfig & H0 & Hrange).
  assert (HE0 : E_0 = g 0%nat).
  { rewrite Hst in H0. destruct p; cbn in H0; congruence. }
  exists data, fig. eexists _, _.
  split; [exact Hdata|]. split; [exact Hfig|]. split; [exact Hrange|].
  assert (Hp : INR p = IZR N - 1).
  { unfold p. rewrite INR_IZR_INZ, Z2Nat.id by lia. rewrite minus_IZR. lra. }
  rewrite HE0. unfold g. rewrite S_INR, Hp. simpl INR.
  replace 0.5 with (1 / 2) by lra. replace 1.5 with (3 / 2) by lra.
  split; field; lra.
Qed.

Lemma computed_yaxis_range_witness :
  exists data fig lowen upen,
    calc_data initial_vars (Some 5%Z) = Py.Ok (Dash.value data)
    /\ update_plot data = Py.Ok fig
    /\ yaxis_range fig = [lowen; upen]
    /\ lowen = 0
    /\ upen = HBAR * (sqrt (480 / (0.9768 * 1.6605E-27)) / (2 * PI))
              * (IZR 5 + 1.5) / 1.98630E-23.
Proof.
  apply (computed_yaxis_range initial_vars 5 480 (0.9768 * 1.6605E-27)
           (sqrt (480 / (0.9768 * 1.6605E-27)) / LIGHT));
    try reflexivity; try exact initial_vars_defined; try lra; lia.
Defined.

(** ** The lines of the exported file *)

Lemma lines_written_app (a b : list chunk) :
  lines_written (a ++ b) = (lines_written a + lines_written b)%nat.
Proof. unfold lines_written. rewrite List.filter_app, length_app. reflexivity. Qed.

Lemma lines_written_concat {A : Type} (f : A -> list chunk) (l : list A) :
  (forall a, lines_written (f a) = 1%nat) ->
  lines_written (concat (map f l)) = length l.
Proof.
  intros Hf. induction l as [|a l IH]; [reflexivity|].
  cbn [map concat length]. rewrite lines_written_app, Hf, IH. reflexivity.
Qed.

Lemma lines_written_values (row : list R) :
  lines_written (concat (map (fun state_wf =>
                                [fixed 8 state_wf; text ", "]) row)) = 0%nat.
Proof.
  induction row as [|v row IH]; [reflexivity|].
  cbn [map concat]. rewrite lines_written_app, IH. reflexivity.
Qed.

Lemma file_layout_lines (shown states potential : list R)
    (wf : list (list R)) :
  lines_written (file_layout shown states potential wf)
  = (8 + length states + Nat.min (length shown) (length potential)
     + Nat.min (length shown) (length wf))%nat.
Proof.
  unfold file_layout. rewrite !lines_written_app.
  rewrite (lines_written_concat (fun se => [fixed 6 se; text nl]))
    by reflexivity.
  rewrite (lines_written_concat
             (fun '(di, se) => [fixed 6 di; text ", "; fixed 6 se; text nl]))
    by (intros [di se]; reflexivity).
  rewrite (lines_written_concat
             (fun '(di, row) =>
                [fixed 8 di; text ", "]
                ++ concat (map (fun state_wf =>
                                  [fixed 8 state_wf; text ", "]) row)
                ++ [text nl])).
  - rewrite !length_zip.
    change (lines_written [text "Vibrational wavefunction data calculated using waveplot.com";
                           text nl; text "A tool by Jon Kragskow"; text nl])
      with 2%nat.
    change (lines_written [text nl; text "State energies (cm-1)"; text nl])
      with 2%nat.
    change (lines_written [text nl;
                           text "Displacement (A), Harmonic potential (cm-1)";
                           text nl]) with 2%nat.
    change (lines_written [text nl;
                           text "Displacement (A), Harmonic Wavefunction for n=0, n=1, ...";
                           text nl]) with 2%nat.
    lia.
  - intros [di row]. rewrite !lines_written_app, lines_written_values.
    reflexivity.
Qed.

(** X18. For a dataset with its four entries the exported file has 8 heading
    and blank lines, one line per state energy, one line per pair of the
    grid with the potential, and one line per pair of the grid with the
    list of wavefunctions: the last table has as many lines as there are
    wavefunctions (when the grid is longer), not one per grid point. *)
Theorem download_data_lines (_nc : Z) (data : gmap string value)
    (x potential states : list R) (wf : list (list R)) :
  data !! "x" = Some (floats x) ->
  data !! "potential" = Some (floats potential) ->
  data !! "states" = Some (floats states) ->
  data !! "wf" = Some (rows wf) ->
  exists out,
    download_data _nc data = Py.Ok (Dash.value out)
    /\ lines_written (content out)
       = (8 + length states + Nat.min (length x) (length potential)
          + Nat.min (length x) (length wf))%nat.
Proof.
  intros Hx Hp Hs Hw. eexists.
  split; [apply (download_data_layout _nc data x potential states wf);
          assumption|].
  cbn [content]. rewrite file_layout_lines, length_map. reflexivity.
Qed.

Lemma download_data_lines_witness :
  let x := [-1; 0; 1] in
  let potential := [1; 0; 1] in
  let states := [7] in
  let wf := [[0; 0; 0]] in
  let data : gmap string value :=
    <["x" := floats x]> (<["wf" := rows wf]>
    (<["states" := floats states]> (<["potential" := floats potential]> ∅))) in
  exists out,
    download_data 1 data = Py.Ok (Dash.value out)
    /\ lines_written (content out)
       = (8 + length states + Nat.min (length x) (length potential)
          + Nat.min (length x) (length wf))%nat.
Proof.
  intros x potential states wf data.
  apply (download_data_lines 1 data x potential states wf); reflexivity.
Defined.



(** ** From the inputs to the figure and the file *)

(** X20. On the ready path, with four positive inputs and 1 <= max_n <= 99, the
    callbacks run to the end without raising: calc_data returns a dataset,
    update_plot a figure and download_data the file
    'waveplot_harmonic_data.dat', whose last table has max_n + 1 lines (one
    per state) while the potential table has 100. *)
Theorem ready_pipeline_runs
    (lin_wn ang_wn fc mu : R) (lin_wn_fix ang_wn_fix fc_fix mu_fix : bool)
    (N _nc : Z) :
  count_occ bool_dec [lin_wn_fix; ang_wn_fix; fc_fix; mu_fix] true = 2%nat ->
  ~ (lin_wn_fix = true /\ ang_wn_fix = true) ->
  0 < lin_wn -> 0 < ang_wn -> 0 < fc -> 0 < mu ->
  (1 <= N <= 99)%Z ->
  let r := update_inputs lin_wn ang_wn fc mu
                         lin_wn_fix ang_wn_fix fc_fix mu_fix in
  exists data fig out,
    calc_data (store r) (Some N) = Py.Ok (Dash.value data)
    /\ update_plot data = Py.Ok fig
    /\ download_data _nc data = Py.Ok (Dash.value out)
    /\ filename out = "waveplot_harmonic_data.dat"
    /\ lines_written (content out)
       = (8 + Z.to_nat (N + 1) + 100 + Z.to_nat (N + 1))%nat.
Proof.
  intros Htwo Hnot Hl Ha Hk Hm HN r.
  destruct (ready_store_consistent lin_wn ang_wn fc mu
              lin_wn_fix ang_wn_fix fc_fix mu_fix Htwo Hnot Hl Ha Hk Hm)
    as (l & a & k & m & Hstore & _ & _ & _).
  unfold r. rewrite Hstore.
  set (vars := <["fc" := Some k]> (<["mu" := Some m]>
               (<["ang_wn" := Some a]> (<["lin_wn" := Some l]> ∅)))
              : gmap string (option R)).
  assert (Hfc : vars !! "fc" = Some (Some k)) by reflexivity.
  assert (Hmu : vars !! "mu" = Some (Some m)) by reflexivity.
  assert (Hang : vars !! "ang_wn" = Some (Some a)) by reflexivity.
  destruct (calc_data_lengths vars (Some N) k m a
              Hfc Hmu Hang (no_None_ready_store l a k m))
    as (data & x & potential & states & wf & Hdata & Hx & Hp & Hs & Hw
        & Hlx & Hlp & Hls & Hlw & _).
  assert (Hgrid : x <> []) by (intros ->; discriminate).
  destruct (two_last states) as (l0 & E_prev & E_last & Hst); [lia|].
  destruct (update_plot_range data x potential states wf
              Hx Hp Hs Hw Hgrid l0 E_prev E_last Hst)
    as (fig & _ & Hfig & _).
  exists data, fig. eexists.
  split; [exact Hdata|]. split; [exact Hfig|].
  split; [apply (download_data_layout _nc data x potential states wf);
          assumption|].
  split; [reflexivity|]. cbn [content].
  rewrite file_layout_lines, length_map, Hlx, Hlp, Hls, Hlw. lia.
Qed.

Lemma ready_pipeline_runs_witness :
  let r := update_inputs 2888 18145.84 480 0.9768 false false true true in
  exists data fig out,
    calc_data (store r) (Some 5%Z) = Py.Ok (Dash.value data)
    /\ update_plot data = Py.Ok fig
    /\ download_data 1 data = Py.Ok (Dash.value out)
    /\ filename out = "waveplot_harmonic_data.dat"
    /\ lines_written (content out)
       = (8 + Z.to_nat (5 + 1) + 100 + Z.to_nat (5 + 1))%nat.
Proof.
  apply (ready_pipeline_runs 2888 18145.84 480 0.9768
           false false true true 5 1);
    try reflexivity; try lra; try lia; try (intros [H1 H2]; discriminate).
Defined.

(** ** More on the ready path *)

(** X21. On the ready path the result depends on the two fixed inputs only: two
    calls that agree on the fixed values return the same dictionary and the
    same displayed values, whatever the other two inputs are. *)
Theorem update_inputs_ignores_free_inputs
    (lin_wn ang_wn fc mu lin_wn' ang_wn' fc' mu' : R)
    (lin_wn_fix ang_wn_fix fc_fix mu_fix : bool) :
  count_occ bool_dec [lin_wn_fix; ang_wn_fix; fc_fix; mu_fix] true = 2%nat ->
  ~ (lin_wn_fix = true /\ ang_wn_fix = true) ->
  (lin_wn_fix = true -> lin_wn = lin_wn') ->
  (ang_wn_fix = true -> ang_wn = ang_wn') ->
  (fc_fix = true -> fc = fc') ->
  (mu_fix = true -> mu = mu') ->
  update_inputs lin_wn ang_wn fc mu lin_wn_fix ang_wn_fix fc_fix mu_fix
  = update_inputs lin_wn' ang_wn' fc' mu'
                  lin_wn_fix ang_wn_fix fc_fix mu_fix.
Proof.
  intros Htwo Hnot Hl Ha Hf Hm.
  ready_cases lin_wn_fix ang_wn_fix fc_fix mu_fix Htwo Hnot;
    try rewrite (Hl eq_refl); try rewrite (Ha eq_refl);
    try rewrite (Hf eq_refl); try rewrite (Hm eq_refl); reflexivity.
Qed.

Lemma update_inputs_ignores_free_inputs_witness :
  update_inputs 2888 18145.84 480 0.9768 false false true true
  = update_inputs 1 2 480 0.9768 false false true true.
Proof.
  apply (update_inputs_ignores_free_inputs 2888 18145.84 480 0.9768
           1 2 480 0.9768 false false true true);
    try reflexivity; try discriminate.
  intros [H _]. discriminate H.
Defined.

(** X22. In the dataset that calc_data computes (k > 0, m > 0, max_n >= 0) the
    stored potential belongs to the stored grid: at each point it is
    k d^2 / 2 in cm-1 for d the stored displacement divided by 10E10. *)
Theorem stored_potential_of_grid (vars : gmap string (option R)) (N : Z)
    (k m ang_wn : R) (i : nat) :
  vars !! "fc" = Some (Some k) ->
  vars !! "mu" = Some (Some m) ->
  vars !! "ang_wn" = Some (Some ang_wn) ->
  (forall key, vars !! key <> Some None) ->
  0 < k -> 0 < m -> (0 <= N)%Z -> (i < 100)%nat ->
  exists data x potential x_i V_i,
    calc_data vars (Some N) = Py.Ok (Dash.value data)
    /\ data !! "x" = Some (floats x)
    /\ data !! "potential" = Some (floats potential)
    /\ x !! i = Some x_i
    /\ potential !! i = Some V_i
    /\ V_i = 0.5 * k * (x_i / 10E10) ^ 2 / 1.98630E-23.
Proof.
  intros Hfc Hmu Hang Hnone Hk Hm HN Hi.
  eexists _, _, _, _, _.
  split; [apply (calc_data_value vars (Some N) k m ang_wn); assumption|].
  split; [reflexivity|]. split; [reflexivity|].
  unfold Np.scale, Np.div_scalar.
  split; [rewrite list_lookup_fmap, displacement_lookup by exact Hi;
          reflexivity|].
  split; [rewrite list_lookup_fmap,
            (harmonic_E_lookup k m N i _ (displacement_lookup k m N i Hi));
          reflexivity|].
  set (d := - sqrt _ * 1.2 + _).
  replace (10E10 * d / 10E10) with d by (field; lra). reflexivity.
Qed.

Lemma stored_potential_of_grid_witness :
  exists data x potential x_i V_i,
    calc_data initial_vars (Some 5%Z) = Py.Ok (Dash.value data)
    /\ data !! "x" = Some (floats x)
    /\ data !! "potential" = Some (floats potential)
    /\ x !! 40%nat = Some x_i
    /\ potential !! 40%nat = Some V_i
    /\ V_i = 0.5 * 480 * (x_i / 10E10) ^ 2 / 1.98630E-23.
Proof.
  apply (stored_potential_of_grid initial_vars 5 480 (0.9768 * 1.6605E-27)
           (sqrt (480 / (0.9768 * 1.6605E-27)) / LIGHT) 40);
    try reflexivity; try exact initial_vars_defined; try lra; lia.
Defined.

(** X23. On the ready path with positive inputs, consecutive state energies of
    the computed dataset differ by the stored linear wavenumber times
    HBAR * LIGHT / 1.98630E-23; this factor lies between 1.00007 and
    1.00008, so the plotted spacing is a little more than the linear
    wavenumber shown. *)
Theorem stored_spacing_ratio
    (lin_wn ang_wn fc mu : R) (lin_wn_fix ang_wn_fix fc_fix mu_fix : bool)
    (N : Z) (n : nat) :
  count_occ bool_dec [lin_wn_fix; ang_wn_fix; fc_fix; mu_fix] true = 2%nat ->
  ~ (lin_wn_fix = true /\ ang_wn_fix = true) ->
  0 < lin_wn -> 0 < ang_wn -> 0 < fc -> 0 < mu ->
  (Z.of_nat n < N)%Z ->
  let r := update_inputs lin_wn ang_wn fc mu
                         lin_wn_fix ang_wn_fix fc_fix mu_fix in
  exists data states l E_n E_n1,
    calc_data (store r) (Some N) = Py.Ok (Dash.value data)
    /\ data !! "states" = Some (floats states)
    /\ store r !! "lin_wn" = Some (Some l)
    /\ states !! n = Some E_n
    /\ states !! S n = Some E_n1
    /\ E_n1 - E_n = l * (HBAR * LIGHT / 1.98630E-23)
    /\ 1.00007 * l < E_n1 - E_n < 1.00008 * l.
Proof.
  intros Htwo Hnot Hl Ha Hk Hm Hn r.
  destruct (ready_store_consistent lin_wn ang_wn fc mu
              lin_wn_fix ang_wn_fix fc_fix mu_fix Htwo Hnot Hl Ha Hk Hm)
    as (l & a & k & m & Hstore & (Hl' & Ha' & Hk' & Hm') & Hal & Hkm).
  pose proof LIGHT_pos as Hc. pose proof two_PI_gt_4 as Hpi.
  unfold r. rewrite Hstore.
  set (vars := <["fc" := Some k]> (<["mu" := Some m]>
               (<["ang_wn" := Some a]> (<["lin_wn" := Some l]> ∅)))
              : gmap string (option R)).
  assert (Hfc : vars !! "fc" = Some (Some k)) by reflexivity.
  assert (Hmu : vars !! "mu" = Some (Some m)) by reflexivity.
  assert (Hang : vars !! "ang_wn" = Some (Some a)) by reflexivity.
  assert (Hsq : sqrt (k / m) = a * LIGHT).
  { replace (k / m) with ((a * LIGHT) ^ 2) by (rewrite Hkm; field; lra).
    apply sqrt_pow2. nra. }
  eexists _, _, l, _, _.
  split; [apply (calc_data_value vars (Some N) k m a Hfc Hmu Hang
                   (no_None_ready_store l a k m))|].
  split; [reflexivity|]. split; [reflexivity|].
  unfold Np.div_scalar.
  split; [rewrite list_lookup_fmap, state_E_lookup by lia; reflexivity|].
  split; [rewrite list_lookup_fmap, state_E_lookup by lia; reflexivity|].
  rewrite Hsq, Hal, S_INR.
  assert (Heq : HBAR * (2 * PI * l * LIGHT / (2 * PI)) * (INR n + 1 + 0.5)
                / 1.98630E-23
                - HBAR * (2 * PI * l * LIGHT / (2 * PI)) * (INR n + 0.5)
                  / 1.98630E-23
                = l * (HBAR * LIGHT / 1.98630E-23)).
  { replace 0.5 with (1 / 2) by lra. field. split; lra. }
  rewrite Heq. split; [reflexivity|].
  assert (Hratio : 1.00007 < HBAR * LIGHT / 1.98630E-23 < 1.00008)
    by (unfold HBAR, Planck, LIGHT, speed_of_light; lra).
  split; nra.
Qed.

Lemma stored_spacing_ratio_witness :
  let r := update_inputs 2888 18145.84 480 0.9768 false false true true in
  exists data states l E_n E_n1,
    calc_data (store r) (Some 5%Z) = Py.Ok (Dash.value data)
    /\ data !! "states" = Some (floats states)
    /\ store r !! "lin_wn" = Some (Some l)
    /\ states !! 2%nat = Some E_n
    /\ states !! 3%nat = Some E_n1
    /\ E_n1 - E_n = l * (HBAR * LIGHT / 1.98630E-23)
    /\ 1.00007 * l < E_n1 - E_n < 1.00008 * l.
Proof.
  apply (stored_spacing_ratio 2888 18145.84 480 0.9768
           false false true true 5 2);
    try reflexivity; try lra; try lia; try (intros [H1 H2]; discriminate).
Defined.
